(** * STM32CubeMX configuration validator: a shallow embedding

    This development embeds [scripts/validate_cubemx_config.py] and proves
    properties of its loader, its five checks, its reporting and its exit
    status.

    Modelling conventions.
    - A Python [str] is a [string]; a character stands for the code point
      with the same number, so the model covers texts whose code points lie
      in U+0000..U+00FF.  On that range [str.strip] and [int] are modelled
      exactly (see [Str.isspace] and [py_int]), [int] with the limit on
      the number of digits that the interpreter sets by default.
    - The dictionary [self.config] is a [gmap string string].
    - The methods of [IocValidator] mutate [self] and may raise; they are
      functions from the object to a [Result], composed with the bind of
      the monad [M].  The object carries, beside its attributes, what the
      run has printed and the calls of [get_value] it has answered.
    - Printed lines and findings are sequences of fragments ([Frag]), one
      per piece of the f-string they come from; a floating point rendering
      is kept symbolic ([Mhz]), but the conversion of the integer to a
      float, which can raise, is modelled ([true_div_1e6]). *)

From Stdlib Require Import ZArith NArith Ascii String List Bool Lia.
From stdpp Require Import gmap strings.

(** ** Strings *)

Module Str.

(** [str.isspace] on U+0000..U+00FF: the characters removed by
    [str.strip()] called without argument. *)
Definition isspace (c : ascii) : bool :=
  let n := N_of_ascii c in
  ((9 <=? n) && (n <=? 13) || (28 <=? n) && (n <=? 31)
   || (n =? 32) || (n =? 133) || (n =? 160))%N.

Fixpoint lstrip (s : string) : string :=
  match s with
  | EmptyString => EmptyString
  | String c s' => if isspace c then lstrip s' else s
  end.

Fixpoint rstrip (s : string) : string :=
  match s with
  | EmptyString => EmptyString
  | String c s' =>
      match rstrip s' with
      | EmptyString => if isspace c then EmptyString else String c EmptyString
      | r => String c r
      end
  end.

(** [s.strip()] *)
Definition strip (s : string) : string := rstrip (lstrip s).

(** [c in s] for a one-character [c] *)
Fixpoint contains (c : ascii) (s : string) : bool :=
  match s with
  | EmptyString => false
  | String d s' => Ascii.eqb d c || contains c s'
  end.

(** [s.startswith(c)] for a one-character [c] *)
Definition startswith (c : ascii) (s : string) : bool :=
  match s with
  | EmptyString => false
  | String d _ => Ascii.eqb d c
  end.

(** [s.split(c, 1)] when it has two parts: the text before the first
    [c] and the text after it; [None] when [c] does not occur (the
    split then has one part only). *)
Fixpoint split_first (c : ascii) (s : string) : option (string * string) :=
  match s with
  | EmptyString => None
  | String d s' =>
      if Ascii.eqb d c then Some (EmptyString, s')
      else match split_first c s' with
           | Some (k, v) => Some (String d k, v)
           | None => None
           end
  end.

Definition LF : ascii := ascii_of_N 10.
Definition CR : ascii := ascii_of_N 13.
Definition nl : string := String LF EmptyString.

(** The lines a text-mode file yields when iterated ([for line in f],
    universal newlines): the text is cut after every line end (LF, CR LF
    or CR), each line keeps its end as one LF, and a last line without
    line end is yielded as it is.  [cur] is the line read so far. *)
Fixpoint readlines_from (cur : string) (s : string) : list string :=
  match s with
  | EmptyString => match cur with EmptyString => [] | _ => [cur] end
  | String c s' =>
      if Ascii.eqb c LF then (cur +:+ nl) :: readlines_from EmptyString s'
      else if Ascii.eqb c CR then
        (cur +:+ nl) ::
        match s' with
        | String d s'' =>
            if Ascii.eqb d LF then readlines_from EmptyString s''
            else readlines_from EmptyString s'
        | EmptyString => []
        end
      else readlines_from (cur +:+ String c EmptyString) s'
  end.

Definition readlines (text : string) : list string :=
  readlines_from EmptyString text.

End Str.

(** ** [int(str)] *)

(** White space skipped by [int] around the number: the C-locale space
    characters, and the two other spaces of the range, which [int]
    rewrites to a blank beforehand.  The values the loader stores are
    stripped, so for them nothing is skipped. *)
Definition int_space (c : ascii) : bool :=
  let n := N_of_ascii c in
  ((9 <=? n) && (n <=? 13) || (n =? 32) || (n =? 133) || (n =? 160))%N.

Fixpoint int_lskip (s : string) : string :=
  match s with
  | EmptyString => EmptyString
  | String c s' => if int_space c then int_lskip s' else s
  end.

Fixpoint int_rskip (s : string) : string :=
  match s with
  | EmptyString => EmptyString
  | String c s' =>
      match int_rskip s' with
      | EmptyString => if int_space c then EmptyString else String c EmptyString
      | r => String c r
      end
  end.

Definition digit (c : ascii) : option Z :=
  let n := N_of_ascii c in
  if ((48 <=? n) && (n <=? 57))%N then Some (Z.of_N n - 48)%Z else None.

(** Decimal digits, with single underscores allowed between two digits.
    [prev] tells whether the previous character was a digit. *)
Fixpoint int_digits (acc : Z) (prev : bool) (s : string) : option Z :=
  match s with
  | EmptyString => if prev then Some acc else None
  | String c s' =>
      match digit c with
      | Some d => int_digits (10 * acc + d)%Z true s'
      | None =>
          if Ascii.eqb c "_"%char && prev then int_digits acc false s'
          else None
      end
  end.

(** The largest number of digits [int] converts, as the interpreter
    sets it by default ([sys.get_int_max_str_digits()]); the program
    leaves it as it is. *)
Definition MAX_STR_DIGITS : N := 4300.

Fixpoint count_digits (s : string) : N :=
  match s with
  | EmptyString => 0
  | String c s' =>
      ((match digit c with Some _ => 1 | None => 0 end) + count_digits s')%N
  end.

(** The number after the sign: a literal with more than [MAX_STR_DIGITS]
    digits (underscores not counted, leading zeros counted) is refused. *)
Definition int_literal (t : string) : option Z :=
  if (MAX_STR_DIGITS <? count_digits t)%N then None
  else int_digits 0 false t.

(** [int(s)]: [None] stands for [ValueError]. *)
Definition py_int (s : string) : option Z :=
  match int_rskip (int_lskip s) with
  | String "+"%char r => int_literal r
  | String "-"%char r => Z.opp <$> int_literal r
  | t => int_literal t
  end.

(** ** The loader *)

(** The body of the loop of [load_config], for one line of the file. *)
Definition load_line (config : gmap string string) (line : string)
  : gmap string string :=
  let line := Str.strip line in
  if Str.contains "="%char line && negb (Str.startswith "#"%char line) then
    match Str.split_first "="%char line with
    | Some (key, value) => <[Str.strip key := Str.strip value]> config
    | None => config
    end
  else config.

Definition load_lines (config : gmap string string) (lines : list string)
  : gmap string string :=
  fold_left load_line lines config.

(** The mapping [load_config] builds from the text of the file, starting
    from the empty [self.config] of a new validator. *)
Definition load_text (text : string) : gmap string string :=
  load_lines ∅ (Str.readlines text).

(** ** The rulebook *)

Record DmaReq := {
  UART_RX_MODE : string; UART_RX_PRIORITY : string;
  UART_TX_MODE : string; UART_TX_PRIORITY : string;
  SPI_MODE : string; ADC_MODE : string }.

Record InterruptReq := {
  DMA_PREEMPT : string; DMA_SUB : string;
  PERIPHERAL_PREEMPT : string; PERIPHERAL_SUB : string }.

Record ClockReq := {
  APB1_MIN : Z; APB1_MAX : Z; APB2_MIN : Z; APB2_MAX : Z }.

Record CanReq := {
  BAUDRATE : Z; AUTO_RETRANSMIT : string; MODE : string }.

Record Requirements := {
  dma : DmaReq; interrupts : InterruptReq; clock : ClockReq; can : CanReq }.

(** The module-level table.  The methods below take the table as their
    first argument [R], so that one can state which entries they read; the
    program always runs them at [REQUIREMENTS]. *)
Definition REQUIREMENTS : Requirements := {|
  dma := {| UART_RX_MODE := "CIRCULAR"; UART_RX_PRIORITY := "HIGH";
            UART_TX_MODE := "NORMAL"; UART_TX_PRIORITY := "MEDIUM";
            SPI_MODE := "NORMAL"; ADC_MODE := "CIRCULAR" |};
  interrupts := {| DMA_PREEMPT := "5"; DMA_SUB := "0";
                   PERIPHERAL_PREEMPT := "6"; PERIPHERAL_SUB := "0" |};
  clock := {| APB1_MIN := 42000000; APB1_MAX := 50000000;
              APB2_MIN := 80000000; APB2_MAX := 100000000 |};
  can := {| BAUDRATE := 500000; AUTO_RETRANSMIT := "ENABLE";
            MODE := "NORMAL" |} |}.

(** ** Messages, the validator object and its monad *)

Inductive Exn := FileNotFoundError | OverflowError | OtherError.

(** A piece of a printed line or of a finding. *)
Inductive Frag :=
| Lit (s : string)          (* literal text, or an interpolated string *)
| Uni (cp : N)              (* one code point above U+00FF *)
| Mhz (prec : nat) (n : Z)  (* [n / 1e6] rendered with [prec] decimals *)
| Num (n : nat)             (* an interpolated count or index *)
| PathName (p : string)     (* [Path(p).name] *)
| ExcText (e : Exn).        (* the text of an exception *)

Definition tick : Frag := Uni 10003.
Definition cross : Frag := Uni 10060.
Definition warn : Frag := Uni 9888.

(** [self], together with what the run has printed so far and with the
    calls of [get_value] answered so far: the key, the default and the
    value returned of each.  No method reads that last record
    ([lookups]); it is there for the statements about the lookups of a
    run. *)
Record IocValidator := {
  ioc_path : string;
  config : gmap string string;
  errors : list (list Frag);
  warnings : list (list Frag);
  stdout : list (list Frag);
  lookups : list (string * string * string) }.

Inductive Result (A : Type) : Type :=
| Ret (a : A) (self : IocValidator)
| Raise (e : Exn) (self : IocValidator).
Arguments Ret {A} a self.
Arguments Raise {A} e self.

Definition M (A : Type) : Type := IocValidator -> Result A.

#[global] Instance M_ret : MRet M := fun A a self => Ret a self.

#[global] Instance M_bind : MBind M := fun A B f m self =>
  match m self with
  | Ret a self' => f a self'
  | Raise e self' => Raise e self'
  end.

Definition raise {A} (e : Exn) : M A := fun self => Raise e self.

Definition print (line : list Frag) : M unit := fun self =>
  Ret tt {| ioc_path := ioc_path self; config := config self;
            errors := errors self; warnings := warnings self;
            stdout := stdout self ++ [line];
            lookups := lookups self |}.

(** [self.errors.append(msg)] *)
Definition errors_append (msg : list Frag) : M unit := fun self =>
  Ret tt {| ioc_path := ioc_path self; config := config self;
            errors := errors self ++ [msg]; warnings := warnings self;
            stdout := stdout self;
            lookups := lookups self |}.

(** [self.warnings.append(msg)] *)
Definition warnings_append (msg : list Frag) : M unit := fun self =>
  Ret tt {| ioc_path := ioc_path self; config := config self;
            errors := errors self; warnings := warnings self ++ [msg];
            stdout := stdout self;
            lookups := lookups self |}.

(** [config.get(key, default)] *)
Definition dict_get (config : gmap string string) (key dflt : string)
  : string :=
  default dflt (config !! key).

(** [get_value]: the value is [self.config.get(key, default)]; the call is
    noted in [lookups]. *)
Definition get_value (key dflt : string) : M string := fun self =>
  Ret (dict_get (config self) key dflt)
    {| ioc_path := ioc_path self; config := config self;
       errors := errors self; warnings := warnings self;
       stdout := stdout self;
       lookups := lookups self
                    ++ [(key, dflt, dict_get (config self) key dflt)] |}.

(** The least magnitude an integer cannot be converted to a float at:
    halfway between the largest finite double and [2^1024]. *)
Definition FLOAT_LIMIT : Z := 2 ^ 1024 - 2 ^ 970.

(** [n / 1e6]: the integer is first converted to a float, which raises
    [OverflowError] when it is too large.  The quotient is kept as [n]. *)
Definition true_div_1e6 (n : Z) : M Z :=
  if (Z.abs n <? FLOAT_LIMIT)%Z then mret n else raise OverflowError.

Definition str_ne (a b : string) : bool := negb (String.eqb a b).

(** Truth value of a string: false for the empty string only. *)
Definition truthy (s : string) : bool := negb (String.eqb s "").

Fixpoint str_mul (s : string) (n : nat) : string :=
  match n with
  | O => ""
  | S n' => s +:+ str_mul s n'
  end.

(** ** The five checks *)

Definition validate_dma_config (R : Requirements) : M unit :=
  print [Lit (Str.nl +:+ "[DMA Configuration]")] ;;
  uart_rx_dma ← get_value "Dma.USART2_RX.0.Mode" "" ;
  uart_tx_dma ← get_value "Dma.USART2_TX.1.Mode" "" ;
  (if str_ne uart_rx_dma (UART_RX_MODE (dma R)) then
     errors_append [Lit "UART RX DMA mode: Expected ";
                    Lit (UART_RX_MODE (dma R)); Lit ", ";
                    Lit "found '"; Lit uart_rx_dma; Lit "'"]
   else
     print [Lit "  "; tick; Lit " UART RX DMA mode: "; Lit uart_rx_dma]) ;;
  (if str_ne uart_tx_dma (UART_TX_MODE (dma R)) then
     warnings_append [Lit "UART TX DMA mode: Expected ";
                      Lit (UART_TX_MODE (dma R)); Lit ", ";
                      Lit "found '"; Lit uart_tx_dma; Lit "'"]
   else
     print [Lit "  "; tick; Lit " UART TX DMA mode: "; Lit uart_tx_dma]) ;;
  adc_dma_mode ← get_value "Dma.ADC1.0.Mode" "" ;
  if str_ne adc_dma_mode (ADC_MODE (dma R)) then
    errors_append [Lit "ADC DMA mode: Expected ";
                   Lit (ADC_MODE (dma R)); Lit ", ";
                   Lit "found '"; Lit adc_dma_mode; Lit "'"]
  else
    print [Lit "  "; tick; Lit " ADC DMA mode: "; Lit adc_dma_mode].

Definition validate_interrupts (R : Requirements) : M unit :=
  print [Lit (Str.nl +:+ "[Interrupt Configuration]")] ;;
  dma_preempt ←
    get_value "NVIC.DMA2_Stream0_IRQn.0.PreemptionPriority" "" ;
  dma_sub ← get_value "NVIC.DMA2_Stream0_IRQn.0.SubPriority" "" ;
  (if str_ne dma_preempt (DMA_PREEMPT (interrupts R)) then
     warnings_append [Lit "DMA preemption priority: Expected ";
                      Lit (DMA_PREEMPT (interrupts R)); Lit ", ";
                      Lit "found '"; Lit dma_preempt; Lit "'"]
   else
     print [Lit "  "; tick; Lit " DMA preemption priority: ";
            Lit dma_preempt]) ;;
  if str_ne dma_sub (DMA_SUB (interrupts R)) then
    warnings_append [Lit "DMA sub-priority: Expected ";
                     Lit (DMA_SUB (interrupts R)); Lit ", ";
                     Lit "found '"; Lit dma_sub; Lit "'"]
  else mret tt.

Definition parse_failed : list Frag :=
  [Lit "Failed to parse clock frequencies from IOC file"].

Definition validate_clock_config (R : Requirements) : M unit :=
  print [Lit (Str.nl +:+ "[Clock Configuration]")] ;;
  apb1_freq_str ← get_value "RCC.APB1Freq_Value" "0" ;
  apb2_freq_str ← get_value "RCC.APB2Freq_Value" "0" ;
  match py_int apb1_freq_str, py_int apb2_freq_str with
  | Some apb1_freq, Some apb2_freq =>
      (if negb ((APB1_MIN (clock R) <=? apb1_freq)%Z
                && (apb1_freq <=? APB1_MAX (clock R))%Z) then
         f ← true_div_1e6 apb1_freq ;
         lo ← true_div_1e6 (APB1_MIN (clock R)) ;
         hi ← true_div_1e6 (APB1_MAX (clock R)) ;
         errors_append [Lit "APB1 frequency out of range: "; Mhz 1 f;
                        Lit " MHz "; Lit "(expected "; Mhz 0 lo; Lit "-";
                        Mhz 0 hi; Lit " MHz)"]
       else
         f ← true_div_1e6 apb1_freq ;
         print [Lit "  "; tick; Lit " APB1 frequency: "; Mhz 1 f;
                Lit " MHz"]) ;;
      if negb ((APB2_MIN (clock R) <=? apb2_freq)%Z
               && (apb2_freq <=? APB2_MAX (clock R))%Z) then
        f ← true_div_1e6 apb2_freq ;
        lo ← true_div_1e6 (APB2_MIN (clock R)) ;
        hi ← true_div_1e6 (APB2_MAX (clock R)) ;
        warnings_append [Lit "APB2 frequency out of optimal range: ";
                         Mhz 1 f; Lit " MHz "; Lit "(recommended ";
                         Mhz 0 lo; Lit "-"; Mhz 0 hi; Lit " MHz)"]
      else
        f ← true_div_1e6 apb2_freq ;
        print [Lit "  "; tick; Lit " APB2 frequency: "; Mhz 1 f;
               Lit " MHz"]
  | _, _ => errors_append parse_failed
  end.

Definition can_not_enabled : list Frag :=
  [Lit "CAN1 not enabled (platform supports CAN)"].

Definition validate_can_config (R : Requirements) : M unit :=
  print [Lit (Str.nl +:+ "[CAN Configuration]")] ;;
  can_mode ← get_value "CAN1.Mode" "" ;
  if negb (truthy can_mode) then warnings_append can_not_enabled
  else
    prescaler ← get_value "CAN1.Prescaler" "" ;
    (if truthy prescaler then
       print [Lit "  "; tick; Lit " CAN prescaler configured: ";
              Lit prescaler]
     else mret tt) ;;
    auto_retx ← get_value "CAN1.NART" "" ;
    if String.eqb auto_retx "DISABLE" then
      print [Lit "  "; tick;
             Lit " CAN auto-retransmit: ENABLED (NART=DISABLE)"]
    else
      warnings_append
        [Lit "CAN auto-retransmit should be enabled (NART=DISABLE), found NART=";
         Lit auto_retx].

Definition keep_user_code_msg : list Frag :=
  [Lit "Code generation setting 'KeepUserCode' must be 'true' for platform integration"].

Definition delete_previous_msg : list Frag :=
  [Lit "Code generation 'DeletePrevious' is enabled - may remove platform files"].

Definition validate_code_generation (R : Requirements) : M unit :=
  print [Lit (Str.nl +:+ "[Code Generation Settings]")] ;;
  keep_user_code ← get_value "ProjectManager.KeepUserCode" "" ;
  (if str_ne keep_user_code "true" then errors_append keep_user_code_msg
   else print [Lit "  "; tick; Lit " Keep user code: Enabled"]) ;;
  delete_prev ← get_value "ProjectManager.DeletePrevious" "" ;
  if String.eqb delete_prev "true" then warnings_append delete_previous_msg
  else mret tt.

(** ** Reporting *)

(** [for i, msg in enumerate(msgs, i): print(f"  {i}. {msg}")] *)
Fixpoint print_numbered (i : nat) (msgs : list (list Frag)) : M unit :=
  match msgs with
  | [] => mret tt
  | msg :: rest =>
      print ([Lit "  "; Num i; Lit ". "] ++ msg) ;;
      print_numbered (S i) rest
  end.

Definition banner : list Frag := [Lit (Str.nl +:+ str_mul "=" 60)].
Definition rule : list Frag := [Lit (str_mul "=" 60)].

Definition is_nil {A} (l : list A) : bool :=
  match l with [] => true | _ => false end.

Definition run_validation (R : Requirements) : M bool :=
  print banner ;;
  print [Lit "STM32CubeMX Configuration Validator"] ;;
  (fun self => print [Lit "File: "; PathName (ioc_path self)] self) ;;
  print rule ;;
  validate_dma_config R ;;
  validate_interrupts R ;;
  validate_clock_config R ;;
  validate_can_config R ;;
  validate_code_generation R ;;
  print banner ;;
  print [Lit "Validation Results"] ;;
  print rule ;;
  errs ← (fun self => Ret (errors self) self) ;
  warns ← (fun self => Ret (warnings self) self) ;
  if is_nil errs && is_nil warns then
    print [Lit Str.nl; tick;
           Lit " All checks passed! Configuration meets platform requirements."] ;;
    mret true
  else
    (if negb (is_nil errs) then
       print [Lit Str.nl; cross; Lit " ERRORS ("; Num (length errs);
              Lit "):"] ;;
       print_numbered 1 errs
     else mret tt) ;;
    (if negb (is_nil warns) then
       print [Lit Str.nl; warn; Lit " WARNINGS ("; Num (length warns);
              Lit "):"] ;;
       print_numbered 1 warns
     else mret tt) ;;
    if negb (is_nil errs) then
      print [Lit Str.nl; cross;
             Lit " Configuration FAILED validation. Fix errors before proceeding."] ;;
      mret false
    else
      print [Lit Str.nl; warn;
             Lit " Configuration passed with warnings. Review recommendations."] ;;
      mret true.

(** ** The constructor and the entry point *)

(** What the file system holds at a path: nothing, a file that cannot be
    opened or decoded, or a file with its decoded text. *)
Inductive File := Missing | Unreadable | Readable (text : string).

(** [load_config]: [FileNotFoundError] for a missing file; any other
    failure of [open] or of the decoding is another exception. *)
Definition load_config (file : File) : M unit := fun self =>
  match file with
  | Missing => Raise FileNotFoundError self
  | Unreadable => Raise OtherError self
  | Readable text =>
      Ret tt {| ioc_path := ioc_path self;
                config := load_lines (config self) (Str.readlines text);
                errors := errors self; warnings := warnings self;
                stdout := stdout self;
                lookups := lookups self |}
  end.

(** The object [__init__] sets up before it calls [load_config]. *)
Definition new_validator (path : string) : IocValidator :=
  {| ioc_path := path; config := ∅; errors := []; warnings := [];
     stdout := [];
     lookups := [] |}.

(** [IocValidator(ioc_path)] followed by [validator.run_validation()] *)
Definition validate (R : Requirements) (path : string) (file : File)
  : Result bool :=
  (load_config file ;; run_validation R) (new_validator path).

(** [main]: [argv] is [sys.argv], [fs] the file system; the result is the
    text printed on standard output and the exit status. *)
Definition main (R : Requirements) (argv : list string) (fs : string -> File)
  : list (list Frag) * Z :=
  match argv with
  | [_; path] =>
      match validate R path (fs path) with
      | Ret success self => (stdout self, if success then 0%Z else 1%Z)
      | Raise FileNotFoundError self =>
          (stdout self ++ [[Lit "Error: "; ExcText FileNotFoundError]], 1%Z)
      | Raise e self =>
          (stdout self ++ [[Lit "Unexpected error: "; ExcText e]], 2%Z)
      end
  | _ =>
      ([[Lit "Usage: python validate_cubemx_config.py <path_to_project.ioc>"]],
       1%Z)
  end.

Definition exit_code (R : Requirements) (argv : list string)
  (fs : string -> File) : Z :=
  snd (main R argv fs).

(** ** Vocabulary of the statements *)

(** The object as a call leaves it, whether it returned or raised. *)
Definition final {A} (r : Result A) : IocValidator :=
  match r with Ret _ self => self | Raise _ self => self end.

(** What a run shows of its findings: whether it returned (and what) or
    raised (and what), the errors and the warnings. *)
Definition outcome {A} (r : Result A)
  : (A + Exn) * list (list Frag) * list (list Frag) :=
  match r with
  | Ret a self => (inl a, errors self, warnings self)
  | Raise e self => (inr e, errors self, warnings self)
  end.

Definition when (b : bool) {A} (x : A) : list A := if b then [x] else [].

(** A validator whose file has been loaded to [cfg]: the object
    [run_validation] is called on. *)
Definition loaded (path : string) (cfg : gmap string string) : IocValidator :=
  {| ioc_path := path; config := cfg; errors := []; warnings := [];
     stdout := [];
     lookups := [] |}.

(** The record of calls of [get_value], each with its key and default,
    answered on a mapping. *)
Definition answered (cfg : gmap string string)
  (calls : list (string * string)) : list (string * string * string) :=
  (fun kd => (kd.1, kd.2, dict_get cfg kd.1 kd.2)) <$> calls.

(** The calls of [get_value] each check makes, in order, with the default
    each passes.  The CAN check stops after the first when [CAN1.Mode]
    is empty. *)
Definition dma_calls : list (string * string) :=
  [("Dma.USART2_RX.0.Mode", ""); ("Dma.USART2_TX.1.Mode", "");
   ("Dma.ADC1.0.Mode", "")].

Definition interrupt_calls : list (string * string) :=
  [("NVIC.DMA2_Stream0_IRQn.0.PreemptionPriority", "");
   ("NVIC.DMA2_Stream0_IRQn.0.SubPriority", "")].

Definition clock_calls : list (string * string) :=
  [("RCC.APB1Freq_Value", "0"); ("RCC.APB2Freq_Value", "0")].

Definition can_calls (cfg : gmap string string) : list (string * string) :=
  ("CAN1.Mode", "")
  :: (if decide (dict_get cfg "CAN1.Mode" "" = "") then []
      else [("CAN1.Prescaler", ""); ("CAN1.NART", "")]).

Definition codegen_calls : list (string * string) :=
  [("ProjectManager.KeepUserCode", "");
   ("ProjectManager.DeletePrevious", "")].

(** The calls of a whole run that goes to its end. *)
Definition validation_calls (cfg : gmap string string)
  : list (string * string) :=
  dma_calls ++ interrupt_calls ++ clock_calls ++ can_calls cfg
  ++ codegen_calls.

(** A method that leaves the mapping as it is and answers calls of
    [get_value] out of [calls], in order: all of them when it returns,
    the first of them when it raises. *)
Definition answers {A} (m : M A)
  (calls : gmap string string -> list (string * string)) : Prop :=
  forall self,
    config (final (m self)) = config self
    /\ exists performed,
         lookups (final (m self)) = lookups self ++ performed
         /\ performed `prefix_of` answered (config self) (calls (config self))
         /\ (forall a self', m self = Ret a self' ->
             performed = answered (config self) (calls (config self))).

(** The record of lookups is kept for the statements only: no method reads
    it.  [set_lookups] replaces it, [forget] empties it in a result, and a
    method leaves it [unobserved] when what it returns, raises, records
    and prints is the same whatever the record holds. *)
Definition set_lookups (l : list (string * string * string))
  (self : IocValidator) : IocValidator :=
  {| ioc_path := ioc_path self; config := config self;
     errors := errors self; warnings := warnings self;
     stdout := stdout self; lookups := l |}.

Definition forget {A} (r : Result A) : Result A :=
  match r with
  | Ret a s => Ret a (set_lookups [] s)
  | Raise e s => Raise e (set_lookups [] s)
  end.

Definition unobserved {A} (m : M A) : Prop :=
  forall self l, forget (m (set_lookups l self)) = forget (m self).

(** The findings, as the f-strings of the checks build them. *)
Definition expected_found (what expected found : string) : list Frag :=
  [Lit (what +:+ ": Expected "); Lit expected; Lit ", "; Lit "found '";
   Lit found; Lit "'"].

Definition apb1_msg (f : Z) : list Frag :=
  [Lit "APB1 frequency out of range: "; Mhz 1 f; Lit " MHz ";
   Lit "(expected "; Mhz 0 42000000; Lit "-"; Mhz 0 50000000; Lit " MHz)"].

Definition apb2_msg (f : Z) : list Frag :=
  [Lit "APB2 frequency out of optimal range: "; Mhz 1 f; Lit " MHz ";
   Lit "(recommended "; Mhz 0 80000000; Lit "-"; Mhz 0 100000000;
   Lit " MHz)"].

Definition nart_msg (found : string) : list Frag :=
  [Lit "CAN auto-retransmit should be enabled (NART=DISABLE), found NART=";
   Lit found].

(** A string of white space only. *)
Fixpoint all_space (s : string) : bool :=
  match s with
  | EmptyString => true
  | String c s' => Str.isspace c && all_space s'
  end.

(** The entry a line of the file contributes, in the words of the
    specification: strip the line; nothing if it is then empty, starts
    with a hash or has no equal sign; otherwise cut it at the first equal
    sign and trim both parts. *)
Definition spec_entry (line : string) : option (string * string) :=
  let stripped := Str.strip line in
  if decide (stripped = "") then None
  else if Str.startswith "#"%char stripped then None
  else if negb (Str.contains "="%char stripped) then None
  else (fun kv => (Str.strip kv.1, Str.strip kv.2))
         <$> Str.split_first "="%char stripped.

(** The three stages of [run_validation]. *)
Definition print_header : M unit :=
  print banner ;;
  print [Lit "STM32CubeMX Configuration Validator"] ;;
  (fun self => print [Lit "File: "; PathName (ioc_path self)] self) ;;
  print rule.

Definition run_checks (R : Requirements) : M unit :=
  validate_dma_config R ;;
  validate_interrupts R ;;
  validate_clock_config R ;;
  validate_can_config R ;;
  validate_code_generation R.

Definition report : M bool :=
  print banner ;;
  print [Lit "Validation Results"] ;;
  print rule ;;
  errs ← (fun self => Ret (errors self) self) ;
  warns ← (fun self => Ret (warnings self) self) ;
  if is_nil errs && is_nil warns then
    print [Lit Str.nl; tick;
           Lit " All checks passed! Configuration meets platform requirements."] ;;
    mret true
  else
    (if negb (is_nil errs) then
       print [Lit Str.nl; cross; Lit " ERRORS ("; Num (length errs);
              Lit "):"] ;;
       print_numbered 1 errs
     else mret tt) ;;
    (if negb (is_nil warns) then
       print [Lit Str.nl; warn; Lit " WARNINGS ("; Num (length warns);
              Lit "):"] ;;
       print_numbered 1 warns
     else mret tt) ;;
    if negb (is_nil errs) then
      print [Lit Str.nl; cross;
             Lit " Configuration FAILED validation. Fix errors before proceeding."] ;;
      mret false
    else
      print [Lit Str.nl; warn;
             Lit " Configuration passed with warnings. Review recommendations."] ;;
      mret true.

(** The object after the heading of the report has been printed: the one
    the first check is run on. *)
Definition after_header (self : IocValidator) : IocValidator :=
  final (print_header self).

(** The lookups whose result can reach a finding, each with the default
    its call passes.  [CAN1.Mode] is apart: only its truth value is used;
    [CAN1.Prescaler] is printed only. *)
Definition finding_lookups : list (string * string) :=
  [("Dma.USART2_RX.0.Mode", ""); ("Dma.USART2_TX.1.Mode", "");
   ("Dma.ADC1.0.Mode", "");
   ("NVIC.DMA2_Stream0_IRQn.0.PreemptionPriority", "");
   ("NVIC.DMA2_Stream0_IRQn.0.SubPriority", "");
   ("RCC.APB1Freq_Value", "0"); ("RCC.APB2Freq_Value", "0");
   ("CAN1.NART", "");
   ("ProjectManager.KeepUserCode", ""); ("ProjectManager.DeletePrevious", "")].

(** Two mappings the checks cannot tell apart, as far as findings go. *)
Definition same_reads (c1 c2 : gmap string string) : Prop :=
  Forall (fun kd => dict_get c1 kd.1 kd.2 = dict_get c2 kd.1 kd.2)
    finding_lookups
  /\ truthy (dict_get c1 "CAN1.Mode" "") = truthy (dict_get c2 "CAN1.Mode" "").

(** The rulebook entries the checks read. *)
Definition read_entries (R : Requirements)
  : string * string * string * string * string * (Z * Z * Z * Z) :=
  (UART_RX_MODE (dma R), UART_TX_MODE (dma R), ADC_MODE (dma R),
   DMA_PREEMPT (interrupts R), DMA_SUB (interrupts R),
   (APB1_MIN (clock R), APB1_MAX (clock R),
    APB2_MIN (clock R), APB2_MAX (clock R))).

(** A mapping that gives every rulebook key its expected value. *)
Definition meets_rulebook (cfg : gmap string string) : Prop :=
  cfg !! "Dma.USART2_RX.0.Mode" = Some "CIRCULAR"
  /\ cfg !! "Dma.USART2_TX.1.Mode" = Some "NORMAL"
  /\ cfg !! "Dma.ADC1.0.Mode" = Some "CIRCULAR"
  /\ cfg !! "NVIC.DMA2_Stream0_IRQn.0.PreemptionPriority" = Some "5"
  /\ cfg !! "NVIC.DMA2_Stream0_IRQn.0.SubPriority" = Some "0"
  /\ (exists v f, cfg !! "RCC.APB1Freq_Value" = Some v /\ py_int v = Some f
                  /\ (42000000 <= f <= 50000000)%Z)
  /\ (exists v f, cfg !! "RCC.APB2Freq_Value" = Some v /\ py_int v = Some f
                  /\ (80000000 <= f <= 100000000)%Z)
  /\ (exists mode, cfg !! "CAN1.Mode" = Some mode /\ mode <> "")
  /\ cfg !! "CAN1.NART" = Some "DISABLE"
  /\ cfg !! "ProjectManager.KeepUserCode" = Some "true"
  /\ cfg !! "ProjectManager.DeletePrevious" <> Some "true".

(** The clock values of a mapping fail to parse. *)
Definition clock_unparsable (cfg : gmap string string) : Prop :=
  py_int (dict_get cfg "RCC.APB1Freq_Value" "0") = None
  \/ py_int (dict_get cfg "RCC.APB2Freq_Value" "0") = None.

(** [self'] is [self] after some findings were appended: at most [ne]
    errors and [nw] warnings; the mapping and the path are unchanged. *)
Definition grows (ne nw : nat) (self self' : IocValidator) : Prop :=
  config self' = config self /\ ioc_path self' = ioc_path self
  /\ (exists e, errors self' = errors self ++ e /\ length e <= ne)
  /\ (exists w, warnings self' = warnings self ++ w /\ length w <= nw).

(** Two objects with the same findings so far, on mappings the checks
    cannot tell apart; and two results that agree in the same way. *)
Definition sim (s1 s2 : IocValidator) : Prop :=
  same_reads (config s1) (config s2)
  /\ errors s1 = errors s2 /\ warnings s1 = warnings s2.

Definition sim_result {A} (r1 r2 : Result A) : Prop :=
  match r1, r2 with
  | Ret a s1, Ret b s2 => a = b /\ sim s1 s2
  | Raise e1 s1, Raise e2 s2 => e1 = e2 /\ sim s1 s2
  | _, _ => False
  end.

(** The exit status as [main] derives it from the outcome of the run. *)
Definition exit_of_outcome
  (o : (bool + Exn) * list (list Frag) * list (list Frag)) : Z :=
  match o with
  | (inl _, errs, _) => if is_nil errs then 0 else 1
  | (inr FileNotFoundError, _, _) => 1
  | (inr _, _, _) => 2
  end.

(** A rulebook that differs from [REQUIREMENTS] in every entry no check
    reads. *)
Definition other_rulebook : Requirements := {|
  dma := {| UART_RX_MODE := "CIRCULAR"; UART_RX_PRIORITY := "LOW";
            UART_TX_MODE := "NORMAL"; UART_TX_PRIORITY := "LOW";
            SPI_MODE := "CIRCULAR"; ADC_MODE := "CIRCULAR" |};
  interrupts := {| DMA_PREEMPT := "5"; DMA_SUB := "0";
                   PERIPHERAL_PREEMPT := "7"; PERIPHERAL_SUB := "1" |};
  clock := {| APB1_MIN := 42000000; APB1_MAX := 50000000;
              APB2_MIN := 80000000; APB2_MAX := 100000000 |};
  can := {| BAUDRATE := 250000; AUTO_RETRANSMIT := "DISABLE";
            MODE := "LOOPBACK" |} |}.

(** Sample files. *)
Definition line (s : string) : string := s +:+ Str.nl.

Definition sample_ok : string :=
  line "# STM32CubeMX project" +:+
  line "Dma.USART2_RX.0.Mode=CIRCULAR" +:+
  line "Dma.USART2_TX.1.Mode=NORMAL" +:+
  line "Dma.ADC1.0.Mode=CIRCULAR" +:+
  line "NVIC.DMA2_Stream0_IRQn.0.PreemptionPriority=5" +:+
  line "NVIC.DMA2_Stream0_IRQn.0.SubPriority=0" +:+
  line "RCC.APB1Freq_Value=42000000" +:+
  line "RCC.APB2Freq_Value=84000000" +:+
  line "CAN1.Mode=NORMAL" +:+
  line "CAN1.NART=DISABLE" +:+
  line "ProjectManager.KeepUserCode=true".

(** [sample_ok] with a clock value that is no number. *)
Definition sample_abc : string :=
  sample_ok +:+ line "RCC.APB1Freq_Value=abc".

(** [sample_ok] with a 401-digit clock value, a one and 400 zeros. *)
Definition sample_huge : string :=
  sample_ok +:+ line ("RCC.APB1Freq_Value=1" +:+ str_mul "0" 400).

(** ** Vocabulary of the further properties *)

(** A string without line end. *)
Fixpoint no_eol (s : string) : bool :=
  match s with
  | EmptyString => true
  | String c s' =>
      negb (Ascii.eqb c Str.LF) && negb (Ascii.eqb c Str.CR) && no_eol s'
  end.

(** A key and a value that a line [key=value] hands to the loader as they
    are: both trimmed and on one line, the key without equal sign and not
    starting with a hash. *)
Definition plain_entry (kv : string * string) : Prop :=
  Str.strip kv.1 = kv.1 /\ Str.strip kv.2 = kv.2
  /\ Str.contains "="%char kv.1 = false
  /\ Str.startswith "#"%char kv.1 = false
  /\ no_eol kv.1 = true /\ no_eol kv.2 = true.

Definition entry_line (kv : string * string) : string :=
  kv.1 +:+ "=" +:+ kv.2 +:+ Str.nl.

(** The text of a file with one line per entry. *)
Fixpoint entries_text (es : list (string * string)) : string :=
  match es with
  | [] => ""
  | kv :: rest => entry_line kv +:+ entries_text rest
  end.

(** Whether an integer can be converted to a float. *)
Definition float_ok (n : Z) : bool := (Z.abs n <? FLOAT_LIMIT)%Z.

(** The two clock values as the clock check parses them. *)
Definition clock_values (cfg : gmap string string) : option Z * option Z :=
  (py_int (dict_get cfg "RCC.APB1Freq_Value" "0"),
   py_int (dict_get cfg "RCC.APB2Freq_Value" "0")).

(** Both clock values are integers and one of them is too large for a
    float. *)
Definition clock_overflows (cfg : gmap string string) : bool :=
  match clock_values cfg with
  | (Some f1, Some f2) => negb (float_ok f1) || negb (float_ok f2)
  | _ => false
  end.

(** The findings of each check under [REQUIREMENTS], as functions of the
    mapping. *)
Definition dma_errors (cfg : gmap string string) : list (list Frag) :=
  let rx := dict_get cfg "Dma.USART2_RX.0.Mode" "" in
  let adc := dict_get cfg "Dma.ADC1.0.Mode" "" in
  when (bool_decide (rx <> "CIRCULAR"))
    (expected_found "UART RX DMA mode" "CIRCULAR" rx)
  ++ when (bool_decide (adc <> "CIRCULAR"))
       (expected_found "ADC DMA mode" "CIRCULAR" adc).

Definition dma_warnings (cfg : gmap string string) : list (list Frag) :=
  let tx := dict_get cfg "Dma.USART2_TX.1.Mode" "" in
  when (bool_decide (tx <> "NORMAL"))
    (expected_found "UART TX DMA mode" "NORMAL" tx).

Definition interrupt_warnings (cfg : gmap string string)
  : list (list Frag) :=
  let pre :=
    dict_get cfg "NVIC.DMA2_Stream0_IRQn.0.PreemptionPriority" "" in
  let sub := dict_get cfg "NVIC.DMA2_Stream0_IRQn.0.SubPriority" "" in
  when (bool_decide (pre <> "5"))
    (expected_found "DMA preemption priority" "5" pre)
  ++ when (bool_decide (sub <> "0"))
       (expected_found "DMA sub-priority" "0" sub).

Definition clock_errors (cfg : gmap string string) : list (list Frag) :=
  match clock_values cfg with
  | (Some f1, Some _) =>
      when (bool_decide (~ (42000000 <= f1 <= 50000000)%Z)) (apb1_msg f1)
  | _ => [parse_failed]
  end.

Definition clock_warnings (cfg : gmap string string) : list (list Frag) :=
  match clock_values cfg with
  | (Some _, Some f2) =>
      when (bool_decide (~ (80000000 <= f2 <= 100000000)%Z)) (apb2_msg f2)
  | _ => []
  end.

Definition can_warnings (cfg : gmap string string) : list (list Frag) :=
  let nart := dict_get cfg "CAN1.NART" "" in
  if decide (dict_get cfg "CAN1.Mode" "" = "") then [can_not_enabled]
  else when (bool_decide (nart <> "DISABLE")) (nart_msg nart).

Definition codegen_errors (cfg : gmap string string) : list (list Frag) :=
  when (bool_decide (dict_get cfg "ProjectManager.KeepUserCode" "" <> "true"))
    keep_user_code_msg.

Definition codegen_warnings (cfg : gmap string string)
  : list (list Frag) :=
  when (bool_decide (dict_get cfg "ProjectManager.DeletePrevious" "" = "true"))
    delete_previous_msg.

(** The findings of a whole run, in the order the checks record them. *)
Definition expected_errors (cfg : gmap string string) : list (list Frag) :=
  dma_errors cfg ++ clock_errors cfg ++ codegen_errors cfg.

Definition expected_warnings (cfg : gmap string string)
  : list (list Frag) :=
  dma_warnings cfg ++ interrupt_warnings cfg ++ clock_warnings cfg
  ++ can_warnings cfg ++ codegen_warnings cfg.

(** The lines [print_numbered] prints. *)
Definition numbered (i : nat) (msgs : list (list Frag))
  : list (list Frag) :=
  imap (fun j msg => [Lit "  "; Num (i + j); Lit ". "] ++ msg) msgs.

(** The lines of the report for given errors and warnings. *)
Definition report_lines (errs warns : list (list Frag))
  : list (list Frag) :=
  [banner; [Lit "Validation Results"]; rule]
  ++ match errs, warns with
     | [], [] =>
         [[Lit Str.nl; tick;
           Lit " All checks passed! Configuration meets platform requirements."]]
     | _, _ =>
         match errs with
         | [] => []
         | _ => [Lit Str.nl; cross; Lit " ERRORS ("; Num (length errs);
                 Lit "):"] :: numbered 1 errs
         end
         ++ match warns with
            | [] => []
            | _ => [Lit Str.nl; warn; Lit " WARNINGS (";
                    Num (length warns); Lit "):"] :: numbered 1 warns
            end
         ++ match errs with
            | [] =>
                [[Lit Str.nl; warn;
                  Lit " Configuration passed with warnings. Review recommendations."]]
            | _ =>
                [[Lit Str.nl; cross;
                  Lit " Configuration FAILED validation. Fix errors before proceeding."]]
            end
     end.

(** * Properties *)

(** ** Strings and the loader *)

Section Strings.

Lemma append_nil s : "" +:+ s = s.
Proof. reflexivity. Qed.

Lemma append_cons d k s : String d k +:+ s = String d (k +:+ s).
Proof. reflexivity. Qed.

(** [split_first] cuts at the first occurrence, and only there. *)
Lemma split_first_Some c s k v :
  Str.split_first c s = Some (k, v)
  <-> s = k +:+ String c v /\ Str.contains c k = false.
Proof.
  revert k. induction s as [|d s IH]; intros k; cbn.
  - split; [discriminate|]. intros [E _]. destruct k; discriminate.
  - destruct (Ascii.eqb_spec d c) as [->|Hne].
    + split.
      * intros [= <- <-]. split; reflexivity.
      * intros [E Hk]. destruct k as [|d' k].
        -- rewrite append_nil in E. injection E as ->. reflexivity.
        -- rewrite append_cons in E. injection E as -> _. cbn in Hk.
           rewrite Ascii.eqb_refl in Hk. discriminate.
    + destruct (Str.split_first c s) as [[k' v']|] eqn:Hs.
      * split.
        -- intros [= <- <-]. destruct (proj1 (IH k') eq_refl) as [-> Hk].
           split; [reflexivity|]. cbn.
           destruct (Ascii.eqb_spec d c); [contradiction|exact Hk].
        -- intros [E Hk]. destruct k as [|d' k].
           ++ rewrite append_nil in E. injection E as -> _. contradiction.
           ++ rewrite append_cons in E. injection E as -> E. cbn in Hk.
              apply orb_false_elim in Hk as [_ Hk].
              assert (Some (k', v') = Some (k, v)) as [= -> ->]
                by (apply IH; auto).
              reflexivity.
      * split; [discriminate|]. intros [E Hk]. destruct k as [|d' k].
        -- rewrite append_nil in E. injection E as -> _. contradiction.
        -- rewrite append_cons in E. injection E as -> E. cbn in Hk.
           apply orb_false_elim in Hk as [_ Hk].
           assert (None = Some (k, v)) by (apply IH; auto). discriminate.
Qed.

(** The unpacking [key, value = line.split('=', 1)] never fails under
    the guard ['=' in line]. *)
Lemma split_first_contains c s :
  Str.contains c s = true <-> is_Some (Str.split_first c s).
Proof.
  induction s as [|d s IH]; cbn.
  - split; [discriminate|]. intros [x Hx]. discriminate.
  - destruct (Ascii.eqb_spec d c); cbn.
    + split; eauto.
    + rewrite IH. destruct (Str.split_first c s) as [[k v]|].
      * split; eauto.
      * split; intros [x Hx]; discriminate.
Qed.

(** [strip] removes white space at both ends, and nothing else. *)
Lemma lstrip_decomp s :
  exists pre, s = pre +:+ Str.lstrip s /\ all_space pre = true.
Proof.
  induction s as [|c s (pre & E & Hp)]; [exists ""; auto|]. cbn.
  destruct (Str.isspace c) eqn:Hc.
  - exists (String c pre). rewrite append_cons, <- E. cbn.
    rewrite Hc, Hp. auto.
  - exists "". auto.
Qed.

Lemma lstrip_head s c r : Str.lstrip s = String c r -> Str.isspace c = false.
Proof.
  induction s as [|d s IH]; cbn; [discriminate|].
  destruct (Str.isspace d) eqn:Hd; [exact IH|].
  intros [= <- _]. exact Hd.
Qed.

Lemma rstrip_decomp s :
  exists post, s = Str.rstrip s +:+ post /\ all_space post = true.
Proof.
  induction s as [|c s (post & E & Hp)]; [exists ""; auto|]. cbn.
  destruct (Str.rstrip s) as [|d r] eqn:Hr.
  - rewrite append_nil in E. subst post.
    destruct (Str.isspace c) eqn:Hc.
    + exists (String c s). cbn. rewrite Hc, Hp. auto.
    + exists s. auto.
  - exists post. rewrite append_cons, <- E. auto.
Qed.

Lemma rstrip_last s : forall r c,
  Str.rstrip s = r +:+ String c "" -> Str.isspace c = false.
Proof.
  induction s as [|d s IH]; intros r c; cbn.
  - destruct r; discriminate.
  - destruct (Str.rstrip s) as [|d' r'] eqn:Hr.
    + destruct (Str.isspace d) eqn:Hd.
      * destruct r; discriminate.
      * destruct r as [|x r]; [intros [= <-]; exact Hd|].
        rewrite append_cons. intros [= _ H]. destruct r; discriminate.
    + destruct r as [|x r]; [discriminate|].
      rewrite append_cons. intros [= _ H]. apply (IH r c H).
Qed.

Lemma rstrip_head c s :
  Str.isspace c = false -> exists r, Str.rstrip (String c s) = String c r.
Proof.
  intros Hc. cbn. destruct (Str.rstrip s); rewrite ?Hc; eauto.
Qed.

Lemma strip_spec s :
  (exists pre post,
      s = pre +:+ Str.strip s +:+ post
      /\ all_space pre = true /\ all_space post = true)
  /\ (forall c r, Str.strip s = String c r -> Str.isspace c = false)
  /\ (forall r c, Str.strip s = r +:+ String c "" ->
                  Str.isspace c = false).
Proof.
  unfold Str.strip. split; [|split].
  - destruct (lstrip_decomp s) as (pre & E & Hp).
    destruct (rstrip_decomp (Str.lstrip s)) as (post & E' & Hq).
    exists pre, post. rewrite <- E', <- E. auto.
  - intros c r H. destruct (Str.lstrip s) as [|d t] eqn:Hl;
      [discriminate|].
    pose proof (lstrip_head _ _ _ Hl) as Hd.
    destruct (rstrip_head d t Hd) as (r' & Hr).
    rewrite Hr in H. injection H as <- _. exact Hd.
  - apply rstrip_last.
Qed.

End Strings.

Section Loader.

Lemma load_line_spec cfg ln :
  load_line cfg ln =
  match spec_entry ln with Some (k, v) => <[k:=v]> cfg | None => cfg end.
Proof.
  unfold load_line, spec_entry. cbv zeta.
  destruct (decide (Str.strip ln = "")) as [->|_]; [reflexivity|].
  destruct (Str.startswith "#" (Str.strip ln)).
  { rewrite andb_false_r. reflexivity. }
  destruct (Str.contains "=" (Str.strip ln)); [|reflexivity]. cbn.
  destruct (Str.split_first "=" (Str.strip ln)) as [[k v]|]; reflexivity.
Qed.

Lemma load_lines_app cfg l1 l2 :
  load_lines cfg (l1 ++ l2) = load_lines (load_lines cfg l1) l2.
Proof. apply fold_left_app. Qed.

(** Later lines overwrite earlier ones: the loaded mapping is the one of
    the entries read backwards, the first binding of a key winning. *)
Lemma load_lines_spec lines cfg :
  load_lines cfg lines
  = list_to_map (reverse (omap spec_entry lines)) ∪ cfg.
Proof.
  revert cfg. induction lines as [|ln lines IH]; intros cfg.
  - cbn. rewrite (left_id_L ∅ (∪)). reflexivity.
  - cbn [load_lines fold_left]. fold (load_lines (load_line cfg ln) lines).
    rewrite IH, load_line_spec. cbn [omap list_omap].
    destruct (spec_entry ln) as [[k v]|]; [|reflexivity].
    rewrite reverse_cons, list_to_map_app. cbn.
    rewrite <- (assoc_L (∪)). f_equal.
    rewrite insert_union_singleton_l, insert_empty. reflexivity.
Qed.

Lemma spec_entry_skip ln :
  Str.strip ln = "" \/ Str.startswith "#" (Str.strip ln) = true
  \/ Str.contains "=" (Str.strip ln) = false ->
  spec_entry ln = None.
Proof.
  unfold spec_entry. cbv zeta. intros [E|[E|E]].
  - rewrite E. reflexivity.
  - rewrite E. destruct (decide _); reflexivity.
  - rewrite E. destruct (decide _); [reflexivity|].
    destruct (Str.startswith _ _); reflexivity.
Qed.

Lemma spec_entry_cut ln k v :
  Str.strip ln = k +:+ String "=" v -> Str.contains "=" k = false ->
  Str.startswith "#" (Str.strip ln) = false ->
  spec_entry ln = Some (Str.strip k, Str.strip v).
Proof.
  intros E Hk Hh. unfold spec_entry. cbv zeta. rewrite Hh.
  assert (Str.split_first "=" (Str.strip ln) = Some (k, v)) as Hs
    by (apply split_first_Some; auto).
  assert (Str.contains "=" (Str.strip ln) = true) as ->
    by (apply split_first_contains; eauto).
  rewrite Hs. destruct (decide _) as [E0|_]; [|reflexivity].
  rewrite E0 in E. destruct k; discriminate.
Qed.

End Loader.

(** ** The checks, one by one *)

Ltac unfold_m :=
  unfold mbind, M_bind, mret, M_ret, raise, print, get_value, errors_append,
    warnings_append in *.

(** Case analysis on every test a check makes, in program order. *)
Ltac explore :=
  repeat (cbn; match goal with
               | |- context [py_int ?x] => destruct (py_int x) eqn:?
               | |- context [if ?c then _ else _] =>
                   lazymatch type of c with bool => destruct c eqn:? end
               end); cbn.

Ltac case_eqb :=
  repeat (cbn; match goal with
               | |- context [String.eqb ?a ?b] =>
                   destruct (String.eqb_spec a b)
               end); cbn.

Ltac solve_appended :=
  cbn; rewrite <- ?app_assoc;
  first [ exists []; rewrite app_nil_r; split; [reflexivity | cbn; lia]
        | eexists; split; [reflexivity | cbn; lia] ].

Ltac solve_grows :=
  unfold grows; cbn; split; [reflexivity|]; split; [reflexivity|];
  split; solve_appended.

Section Grows.

Lemma grows_trans a b c d s1 s2 s3 :
  grows a b s1 s2 -> grows c d s2 s3 -> grows (a + c) (b + d) s1 s3.
Proof.
  intros (C1 & P1 & (e1 & E1 & L1) & (w1 & W1 & M1))
         (C2 & P2 & (e2 & E2 & L2) & (w2 & W2 & M2)).
  repeat split; try congruence.
  - exists (e1 ++ e2). rewrite E2, E1, <- app_assoc, length_app.
    split; [auto|lia].
  - exists (w1 ++ w2). rewrite W2, W1, <- app_assoc, length_app.
    split; [auto|lia].
Qed.

Lemma grows_weaken a b c d s1 s2 :
  grows a b s1 s2 -> a <= c -> b <= d -> grows c d s1 s2.
Proof.
  intros (C1 & P1 & (e1 & E1 & L1) & (w1 & W1 & M1)) ? ?.
  repeat split; auto; eexists; split; eauto; lia.
Qed.

Lemma grows_same s1 s2 :
  grows 0 0 s1 s2 ->
  config s2 = config s1 /\ ioc_path s2 = ioc_path s1
  /\ errors s2 = errors s1 /\ warnings s2 = warnings s1.
Proof.
  intros (C1 & P1 & (e1 & E1 & L1) & (w1 & W1 & M1)).
  destruct e1; [|cbn in L1; lia]. destruct w1; [|cbn in M1; lia].
  rewrite app_nil_r in *. auto.
Qed.

Lemma grows_length a b s1 s2 :
  grows a b s1 s2 ->
  length (errors s2) <= length (errors s1) + a
  /\ length (warnings s2) <= length (warnings s1) + b.
Proof.
  intros (C1 & P1 & (e1 & E1 & L1) & (w1 & W1 & M1)).
  rewrite E1, W1, !length_app. lia.
Qed.

(** Findings add up along a sequence, also when it is cut short. *)
Lemma bind_grows {A B} a b c d (m : M A) (f : A -> M B) :
  (forall s, grows a b s (final (m s))) ->
  (forall x s, grows c d s (final (f x s))) ->
  forall s, grows (a + c) (b + d) s (final ((m ≫= f) s)).
Proof.
  intros Hm Hf s. unfold mbind, M_bind. specialize (Hm s).
  destruct (m s) as [x s1|e s1]; cbn in *.
  - eapply grows_trans; eauto.
  - eapply grows_weaken; eauto; lia.
Qed.

Lemma validate_dma_config_grows R s :
  grows 2 1 s (final (validate_dma_config R s)).
Proof. unfold validate_dma_config. unfold_m. explore; solve_grows. Qed.

Lemma validate_interrupts_grows R s :
  grows 0 2 s (final (validate_interrupts R s)).
Proof. unfold validate_interrupts. unfold_m. explore; solve_grows. Qed.

Lemma validate_clock_config_grows R s :
  grows 1 1 s (final (validate_clock_config R s)).
Proof.
  unfold validate_clock_config, true_div_1e6. unfold_m.
  explore; solve_grows.
Qed.

Lemma validate_can_config_grows R s :
  grows 0 1 s (final (validate_can_config R s)).
Proof. unfold validate_can_config. unfold_m. explore; solve_grows. Qed.

Lemma validate_code_generation_grows R s :
  grows 1 1 s (final (validate_code_generation R s)).
Proof.
  unfold validate_code_generation. unfold_m. explore; solve_grows.
Qed.

Lemma run_checks_grows R s : grows 4 6 s (final (run_checks R s)).
Proof.
  revert s. unfold run_checks.
  apply (bind_grows 2 1 2 5); [apply validate_dma_config_grows|intros _].
  apply (bind_grows 0 2 2 3); [apply validate_interrupts_grows|intros _].
  apply (bind_grows 1 1 1 2); [apply validate_clock_config_grows|intros _].
  apply (bind_grows 0 1 1 1); [apply validate_can_config_grows|intros _].
  apply validate_code_generation_grows.
Qed.

End Grows.

Arguments true_div_1e6 : simpl never.

Section Checks.

Lemma FLOAT_LIMIT_large : (2 ^ 64 < FLOAT_LIMIT)%Z.
Proof. vm_compute. reflexivity. Qed.

Lemma true_div_1e6_ok n s :
  (Z.abs n < FLOAT_LIMIT)%Z -> true_div_1e6 n s = Ret n s.
Proof.
  intros H. unfold true_div_1e6. apply Z.ltb_lt in H. rewrite H.
  reflexivity.
Qed.

Lemma true_div_1e6_overflow n s :
  (FLOAT_LIMIT <= Z.abs n)%Z -> true_div_1e6 n s = Raise OverflowError s.
Proof.
  intros H. unfold true_div_1e6. apply Z.ltb_ge in H. rewrite H.
  reflexivity.
Qed.

Ltac finish_spec :=
  cbn; eexists; (split; [reflexivity|]); cbn;
  repeat case_bool_decide; repeat case_decide; try congruence; cbn;
  rewrite ?app_nil_r, <- ?app_assoc; auto.

Lemma validate_dma_config_spec R s :
  let rx := dict_get (config s) "Dma.USART2_RX.0.Mode" "" in
  let tx := dict_get (config s) "Dma.USART2_TX.1.Mode" "" in
  let adc := dict_get (config s) "Dma.ADC1.0.Mode" "" in
  exists s', validate_dma_config R s = Ret tt s'
    /\ config s' = config s /\ ioc_path s' = ioc_path s
    /\ errors s' = errors s
         ++ when (bool_decide (rx <> UART_RX_MODE (dma R)))
              (expected_found "UART RX DMA mode" (UART_RX_MODE (dma R)) rx)
         ++ when (bool_decide (adc <> ADC_MODE (dma R)))
              (expected_found "ADC DMA mode" (ADC_MODE (dma R)) adc)
    /\ warnings s' = warnings s
         ++ when (bool_decide (tx <> UART_TX_MODE (dma R)))
              (expected_found "UART TX DMA mode" (UART_TX_MODE (dma R)) tx).
Proof.
  cbv zeta. unfold validate_dma_config, str_ne. unfold_m.
  case_eqb; finish_spec.
Qed.

Lemma validate_interrupts_spec R s :
  let pre :=
    dict_get (config s) "NVIC.DMA2_Stream0_IRQn.0.PreemptionPriority" "" in
  let sub :=
    dict_get (config s) "NVIC.DMA2_Stream0_IRQn.0.SubPriority" "" in
  exists s', validate_interrupts R s = Ret tt s'
    /\ config s' = config s /\ ioc_path s' = ioc_path s
    /\ errors s' = errors s
    /\ warnings s' = warnings s
         ++ when (bool_decide (pre <> DMA_PREEMPT (interrupts R)))
              (expected_found "DMA preemption priority"
                 (DMA_PREEMPT (interrupts R)) pre)
         ++ when (bool_decide (sub <> DMA_SUB (interrupts R)))
              (expected_found "DMA sub-priority"
                 (DMA_SUB (interrupts R)) sub).
Proof.
  cbv zeta. unfold validate_interrupts, str_ne. unfold_m.
  case_eqb; finish_spec.
Qed.

(** The clock check when a value is no integer: one error, and nothing
    else happens. *)
Lemma validate_clock_config_unparsable R s :
  clock_unparsable (config s) ->
  validate_clock_config R s =
  Ret tt {| ioc_path := ioc_path s; config := config s;
            errors := errors s ++ [parse_failed]; warnings := warnings s;
            stdout := stdout s
                        ++ [[Lit (Str.nl +:+ "[Clock Configuration]")]];
            lookups := lookups s ++ answered (config s) clock_calls |}.
Proof.
  unfold clock_unparsable, validate_clock_config. unfold_m. cbn.
  intros [-> | ->]; [|destruct (py_int _)]; cbn;
    rewrite <- app_assoc; reflexivity.
Qed.

(** The clock check when both values are integers a float can hold. *)
Lemma validate_clock_config_spec s f1 f2 :
  py_int (dict_get (config s) "RCC.APB1Freq_Value" "0") = Some f1 ->
  py_int (dict_get (config s) "RCC.APB2Freq_Value" "0") = Some f2 ->
  (Z.abs f1 < FLOAT_LIMIT)%Z -> (Z.abs f2 < FLOAT_LIMIT)%Z ->
  exists s', validate_clock_config REQUIREMENTS s = Ret tt s'
    /\ config s' = config s /\ ioc_path s' = ioc_path s
    /\ errors s' = errors s
         ++ when (bool_decide (~ (42000000 <= f1 <= 50000000)%Z))
              (apb1_msg f1)
    /\ warnings s' = warnings s
         ++ when (bool_decide (~ (80000000 <= f2 <= 100000000)%Z))
              (apb2_msg f2).
Proof.
  intros P1 P2 L1 L2. pose proof FLOAT_LIMIT_large as FL.
  unfold validate_clock_config. unfold_m. cbn. rewrite P1, P2. cbn.
  destruct (Z.leb_spec 42000000 f1), (Z.leb_spec f1 50000000),
    (Z.leb_spec 80000000 f2), (Z.leb_spec f2 100000000); cbn;
    rewrite ?true_div_1e6_ok by (cbn; lia); cbn;
    rewrite ?true_div_1e6_ok by (cbn; lia); cbn;
    eexists; (split; [reflexivity|]); cbn;
    repeat case_bool_decide; try lia; cbn; rewrite ?app_nil_r; auto.
Qed.

(** The clock check when the first value to be rendered is an integer
    too large for a float: the check raises before it records anything. *)
Lemma validate_clock_config_overflow s f1 f2 :
  py_int (dict_get (config s) "RCC.APB1Freq_Value" "0") = Some f1 ->
  py_int (dict_get (config s) "RCC.APB2Freq_Value" "0") = Some f2 ->
  (FLOAT_LIMIT <= Z.abs f1)%Z ->
  exists s', validate_clock_config REQUIREMENTS s = Raise OverflowError s'
    /\ errors s' = errors s /\ warnings s' = warnings s.
Proof.
  intros P1 P2 L1. pose proof FLOAT_LIMIT_large as FL.
  unfold validate_clock_config. unfold_m. cbn. rewrite P1, P2. cbn.
  destruct (Z.leb_spec 42000000 f1), (Z.leb_spec f1 50000000); cbn;
    rewrite ?true_div_1e6_overflow by assumption; cbn;
    eexists; (split; [reflexivity|]); cbn; auto.
Qed.

Lemma validate_can_config_spec R s :
  let mode := dict_get (config s) "CAN1.Mode" "" in
  let prescaler := dict_get (config s) "CAN1.Prescaler" "" in
  let nart := dict_get (config s) "CAN1.NART" "" in
  exists s', validate_can_config R s = Ret tt s'
    /\ config s' = config s /\ ioc_path s' = ioc_path s
    /\ errors s' = errors s
    /\ warnings s' = warnings s
         ++ (if decide (mode = "") then [can_not_enabled]
             else when (bool_decide (nart <> "DISABLE")) (nart_msg nart))
    /\ stdout s' = stdout s
         ++ [[Lit (Str.nl +:+ "[CAN Configuration]")]]
         ++ (if decide (mode = "") then []
             else
               when (bool_decide (prescaler <> ""))
                 [Lit "  "; tick; Lit " CAN prescaler configured: ";
                  Lit prescaler]
               ++ when (bool_decide (nart = "DISABLE"))
                    [Lit "  "; tick;
                     Lit " CAN auto-retransmit: ENABLED (NART=DISABLE)"]).
Proof.
  cbv zeta. unfold validate_can_config, truthy. unfold_m.
  case_eqb; finish_spec.
Qed.

Lemma validate_code_generation_spec R s :
  let keep := dict_get (config s) "ProjectManager.KeepUserCode" "" in
  let del := dict_get (config s) "ProjectManager.DeletePrevious" "" in
  exists s', validate_code_generation R s = Ret tt s'
    /\ config s' = config s /\ ioc_path s' = ioc_path s
    /\ errors s' = errors s
         ++ when (bool_decide (keep <> "true")) keep_user_code_msg
    /\ warnings s' = warnings s
         ++ when (bool_decide (del = "true")) delete_previous_msg.
Proof.
  cbv zeta. unfold validate_code_generation, str_ne. unfold_m.
  case_eqb; finish_spec.
Qed.

End Checks.

(** ** The run as a whole *)

Section Run.

Lemma print_header_ret s : print_header s = Ret tt (after_header s).
Proof. reflexivity. Qed.

Lemma after_header_same s :
  config (after_header s) = config s
  /\ ioc_path (after_header s) = ioc_path s
  /\ errors (after_header s) = errors s
  /\ warnings (after_header s) = warnings s.
Proof. repeat split. Qed.

Lemma print_numbered_spec msgs : forall i s,
  exists s', print_numbered i msgs s = Ret tt s'
    /\ config s' = config s /\ ioc_path s' = ioc_path s
    /\ errors s' = errors s /\ warnings s' = warnings s.
Proof.
  induction msgs as [|msg msgs IH]; intros i s.
  - exists s. repeat split.
  - cbn [print_numbered]. unfold mbind, M_bind, print at 1.
    destruct (IH (S i)
                {| ioc_path := ioc_path s; config := config s;
                   errors := errors s; warnings := warnings s;
                   stdout := stdout s
                               ++ [[Lit "  "; Num i; Lit ". "] ++ msg];
                   lookups := lookups s |})
      as (s' & E & ? & ? & ? & ?).
    exists s'. split; [exact E|auto].
Qed.

(** The report returns whether there is no error, and records nothing. *)
Lemma report_spec s :
  exists s', report s = Ret (is_nil (errors s)) s'
    /\ config s' = config s /\ ioc_path s' = ioc_path s
    /\ errors s' = errors s /\ warnings s' = warnings s.
Proof.
  unfold report. unfold_m.
  repeat (cbn;
          match goal with
          | |- context [print_numbered ?i ?l ?st] =>
              destruct (print_numbered_spec l i st)
                as (? & -> & ? & ? & ? & ?)
          | |- context [if ?c then _ else _] =>
              lazymatch type of c with bool => destruct c eqn:? end
          end); cbn in *;
    eexists; (split; [f_equal|]); cbn;
    repeat split; try congruence;
    destruct (errors s); cbn in *; congruence.
Qed.

(** [run_validation] is its three stages in sequence. *)
Lemma run_validation_stages R s :
  run_validation R s = (print_header ;; run_checks R ;; report) s.
Proof.
  unfold run_validation, print_header, run_checks, report.
  unfold mbind, M_bind. unfold print. cbv beta iota.
  destruct (validate_dma_config R _) as [[] s1|]; [|reflexivity].
  destruct (validate_interrupts R s1) as [[] s2|]; [|reflexivity].
  destruct (validate_clock_config R s2) as [[] s3|]; [|reflexivity].
  destruct (validate_can_config R s3) as [[] s4|]; [|reflexivity].
  destruct (validate_code_generation R s4) as [[] s5|]; reflexivity.
Qed.

Lemma run_validation_returns R s s5 :
  run_checks R (after_header s) = Ret tt s5 ->
  exists sf, run_validation R s = Ret (is_nil (errors s5)) sf
    /\ config sf = config s5 /\ errors sf = errors s5
    /\ warnings sf = warnings s5.
Proof.
  intros H. rewrite run_validation_stages. unfold mbind, M_bind.
  rewrite print_header_ret, H.
  destruct (report_spec s5) as (sf & E & ? & ? & ? & ?).
  exists sf. auto.
Qed.

Lemma run_validation_raises R s e s' :
  run_checks R (after_header s) = Raise e s' ->
  run_validation R s = Raise e s'.
Proof.
  intros H. rewrite run_validation_stages. unfold mbind, M_bind.
  rewrite print_header_ret, H. reflexivity.
Qed.

(** The value [run_validation] returns tells whether no error was
    recorded. *)
Lemma run_validation_flag R s b s' :
  run_validation R s = Ret b s' -> b = is_nil (errors s').
Proof.
  destruct (run_checks R (after_header s)) as [[] s5|e s5] eqn:H.
  - destruct (run_validation_returns R s s5 H) as (sf & E & _ & Er & _).
    rewrite E. intros [= <- <-]. rewrite Er. reflexivity.
  - rewrite (run_validation_raises R s e s5 H). discriminate.
Qed.

Lemma same_grows s s' :
  config s' = config s -> ioc_path s' = ioc_path s ->
  errors s' = errors s -> warnings s' = warnings s -> grows 0 0 s s'.
Proof.
  intros C P E W. repeat split; auto; exists []; rewrite app_nil_r; auto.
Qed.

Lemma run_validation_grows R s :
  grows 4 6 s (final (run_validation R s)).
Proof.
  rewrite run_validation_stages. revert s.
  apply (bind_grows 0 0 4 6).
  { intros s. apply same_grows; reflexivity. }
  intros _. apply (bind_grows 4 6 0 0); [apply run_checks_grows|].
  intros _ s. destruct (report_spec s) as (s' & -> & ? & ? & ? & ?).
  apply same_grows; assumption.
Qed.

End Run.

(** ** What the findings depend on *)

Section Reads.

Lemma same_reads_eqs c1 c2 :
  same_reads c1 c2 ->
  forall k d, In (k, d) finding_lookups ->
              dict_get c1 k d = dict_get c2 k d.
Proof.
  intros [H _] k d Hin. rewrite Forall_forall in H.
  apply (H (k, d)). apply list_elem_of_In. exact Hin.
Qed.

Ltac use_reads H :=
  repeat match goal with
         | |- context [dict_get (config ?s) ?k ?d] =>
             rewrite (same_reads_eqs _ _ H k d) by (cbn; tauto)
         end.

Ltac explore_sim H :=
  repeat (cbn; use_reads H;
          match goal with
          | |- context [py_int ?x] => destruct (py_int x) eqn:?
          | |- context [if ?c then _ else _] =>
              lazymatch type of c with bool => destruct c eqn:? end
          end); cbn.

Ltac solve_sim :=
  cbn; split; [reflexivity|]; split; [assumption|]; cbn; split; congruence.

Lemma validate_dma_config_sim R s1 s2 :
  sim s1 s2 ->
  sim_result (validate_dma_config R s1) (validate_dma_config R s2).
Proof.
  intros (Hr & He & Hw). unfold validate_dma_config. unfold_m.
  explore_sim Hr; solve_sim.
Qed.

Lemma validate_interrupts_sim R s1 s2 :
  sim s1 s2 ->
  sim_result (validate_interrupts R s1) (validate_interrupts R s2).
Proof.
  intros (Hr & He & Hw). unfold validate_interrupts. unfold_m.
  explore_sim Hr; solve_sim.
Qed.

Lemma validate_clock_config_sim R s1 s2 :
  sim s1 s2 ->
  sim_result (validate_clock_config R s1) (validate_clock_config R s2).
Proof.
  intros (Hr & He & Hw). unfold validate_clock_config, true_div_1e6.
  unfold_m. explore_sim Hr; solve_sim.
Qed.

Lemma validate_can_config_sim R s1 s2 :
  sim s1 s2 ->
  sim_result (validate_can_config R s1) (validate_can_config R s2).
Proof.
  intros (Hr & He & Hw). unfold validate_can_config. unfold_m.
  cbn. rewrite (proj2 Hr). explore_sim Hr; solve_sim.
Qed.

Lemma validate_code_generation_sim R s1 s2 :
  sim s1 s2 ->
  sim_result (validate_code_generation R s1)
    (validate_code_generation R s2).
Proof.
  intros (Hr & He & Hw). unfold validate_code_generation. unfold_m.
  explore_sim Hr; solve_sim.
Qed.

Lemma bind_sim {A B} (m : M A) (f : A -> M B) :
  (forall s1 s2, sim s1 s2 -> sim_result (m s1) (m s2)) ->
  (forall a s1 s2, sim s1 s2 -> sim_result (f a s1) (f a s2)) ->
  forall s1 s2, sim s1 s2 -> sim_result ((m ≫= f) s1) ((m ≫= f) s2).
Proof.
  intros Hm Hf s1 s2 H. unfold mbind, M_bind. specialize (Hm s1 s2 H).
  destruct (m s1) as [a t1|e t1], (m s2) as [b t2|e' t2]; cbn in Hm;
    try contradiction.
  - destruct Hm as [-> Ht]. apply Hf, Ht.
  - exact Hm.
Qed.

Lemma sim_same s1 s2 t1 t2 :
  sim s1 s2 ->
  config t1 = config s1 -> errors t1 = errors s1 ->
  warnings t1 = warnings s1 ->
  config t2 = config s2 -> errors t2 = errors s2 ->
  warnings t2 = warnings s2 ->
  sim t1 t2.
Proof. unfold sim. intros (? & ? & ?) -> -> -> -> -> ->. auto. Qed.

Lemma run_validation_sim R s1 s2 :
  sim s1 s2 -> sim_result (run_validation R s1) (run_validation R s2).
Proof.
  rewrite !run_validation_stages. revert s1 s2. apply bind_sim.
  { intros s1 s2 H. cbn. split; [reflexivity|].
    eapply sim_same; eauto. }
  intros _. apply bind_sim.
  - unfold run_checks.
    apply bind_sim; [apply validate_dma_config_sim|intros _].
    apply bind_sim; [apply validate_interrupts_sim|intros _].
    apply bind_sim; [apply validate_clock_config_sim|intros _].
    apply bind_sim; [apply validate_can_config_sim|intros _].
    apply validate_code_generation_sim.
  - intros _ s1 s2 H.
    destruct (report_spec s1) as (t1 & -> & ? & ? & ? & ?).
    destruct (report_spec s2) as (t2 & -> & ? & ? & ? & ?).
    cbn. split.
    + destruct H as (_ & -> & _). reflexivity.
    + eapply sim_same; eauto.
Qed.

Lemma sim_result_outcome {A} (r1 r2 : Result A) :
  sim_result r1 r2 -> outcome r1 = outcome r2.
Proof.
  destruct r1, r2; cbn; try contradiction;
    intros [-> (_ & -> & ->)]; reflexivity.
Qed.

(** Findings and result of a run are a function of the values of the
    [finding_lookups] and of the truth value of [CAN1.Mode]. *)
Lemma run_validation_reads R path c1 c2 :
  same_reads c1 c2 ->
  outcome (run_validation R (loaded path c1))
  = outcome (run_validation R (loaded path c2)).
Proof.
  intros H. apply sim_result_outcome, run_validation_sim.
  repeat split; try apply H.
Qed.

(** A run reads the rulebook through [read_entries] only. *)
Lemma run_validation_entries R R' s :
  read_entries R = read_entries R' ->
  run_validation R s = run_validation R' s.
Proof.
  destruct R as [[] [] [] []], R' as [[] [] [] []]. cbn.
  intros [= -> -> -> -> -> -> -> -> ->]. reflexivity.
Qed.

End Reads.

(** ** The entry point *)

Section Main.

Lemma validate_readable R path text :
  validate R path (Readable text)
  = run_validation R (loaded path (load_text text)).
Proof. reflexivity. Qed.

Lemma validate_missing R path :
  validate R path Missing = Raise FileNotFoundError (new_validator path).
Proof. reflexivity. Qed.

Lemma validate_unreadable R path :
  validate R path Unreadable = Raise OtherError (new_validator path).
Proof. reflexivity. Qed.

Lemma validate_flag R path file b s :
  validate R path file = Ret b s -> b = is_nil (errors s).
Proof.
  destruct file; try discriminate.
  rewrite validate_readable. apply run_validation_flag.
Qed.

Lemma validate_bounds R path file :
  length (errors (final (validate R path file))) <= 4
  /\ length (warnings (final (validate R path file))) <= 6.
Proof.
  destruct file;
    [rewrite validate_missing; cbn; lia
    |rewrite validate_unreadable; cbn; lia|].
  rewrite validate_readable.
  pose proof (grows_length _ _ _ _
                (run_validation_grows R (loaded path (load_text text))))
    as H.
  cbn in H. lia.
Qed.

(** The exit status, by cases on what happened. *)
Lemma exit_code_cases R argv fs :
  exit_code R argv fs =
  match argv with
  | [_; path] =>
      match validate R path (fs path) with
      | Ret _ s => if is_nil (errors s) then 0 else 1
      | Raise FileNotFoundError _ => 1
      | Raise _ _ => 2
      end
  | _ => 1
  end%Z.
Proof.
  unfold exit_code, main.
  destruct argv as [|a [|path [|c l]]]; try reflexivity.
  destruct (validate R path (fs path)) as [b s|e s] eqn:E.
  - apply validate_flag in E. subst b. reflexivity.
  - destruct e; reflexivity.
Qed.

End Main.

(** * The claims *)

(** C5: the loader treats the lines of the text one by one.  A line is
    stripped: white space is cut off at both ends, as far as it goes; if the stripped line is empty, starts with a hash or has no
    equal sign it leaves the mapping as it is; any other stripped line
    splits in one way as [k], the first equal sign, [v], and stores the
    trimmed [v] under the trimmed [k], over any earlier value.  So the
    loaded mapping is the one of the entries of the lines, a later line
    winning over an earlier one, and from the lines [A=1], [A=2] the value
    loaded for [A] is [2]. *)
Theorem C5_loader_line_by_line (text : string) :
  (forall ln,
      (exists pre post,
          ln = pre +:+ Str.strip ln +:+ post
          /\ all_space pre = true /\ all_space post = true)
      /\ (forall c r, Str.strip ln = String c r -> Str.isspace c = false)
      /\ (forall r c, Str.strip ln = r +:+ String c "" ->
                      Str.isspace c = false))
  /\ (forall cfg lines1 lines2,
      load_lines cfg (lines1 ++ lines2)
      = load_lines (load_lines cfg lines1) lines2)
  /\ (forall cfg ln,
         Str.strip ln = "" \/ Str.startswith "#" (Str.strip ln) = true
         \/ Str.contains "=" (Str.strip ln) = false ->
         load_line cfg ln = cfg)
  /\ (forall ln,
         Str.contains "=" (Str.strip ln) = true ->
         exists k v, Str.strip ln = k +:+ String "=" v
                     /\ Str.contains "=" k = false)
  /\ (forall cfg ln k v,
         Str.strip ln = k +:+ String "=" v -> Str.contains "=" k = false ->
         Str.startswith "#" (Str.strip ln) = false ->
         load_line cfg ln = <[Str.strip k := Str.strip v]> cfg)
  /\ load_text text
     = list_to_map (reverse (omap spec_entry (Str.readlines text)))
  /\ load_text ("A=1" +:+ Str.nl +:+ "A=2") !! "A" = Some "2".
Proof.
  split; [intros; apply strip_spec|].
  split; [intros; apply load_lines_app|].
  split.
  { intros cfg ln H. rewrite load_line_spec, spec_entry_skip; auto. }
  split.
  { intros ln H. apply split_first_contains in H as [[k v] H].
    exists k, v. apply split_first_Some, H. }
  split.
  { intros cfg ln k v E Hk Hh.
    rewrite load_line_spec, (spec_entry_cut ln k v); auto. }
  split.
  { unfold load_text. rewrite load_lines_spec.
    apply (right_id_L ∅ (∪)). }
  vm_compute. reflexivity.
Qed.

Lemma C5_loader_witness :
  load_line ∅ "  KEY = a=b " = <["KEY" := "a=b"]> ∅
  /\ load_line (<["KEY" := "old"]> ∅) "# KEY = new" = <["KEY" := "old"]> ∅.
Proof.
  destruct (C5_loader_line_by_line "") as (_ & _ & Hskip & _ & Hcut & _).
  split.
  - apply (Hcut ∅ "  KEY = a=b " "KEY " " a=b"); reflexivity.
  - apply Hskip. right; left. reflexivity.
Defined.

(** C6: the DMA check compares [Dma.USART2_RX.0.Mode] with [CIRCULAR]
    (an error when they differ), [Dma.USART2_TX.1.Mode] with [NORMAL] (a
    warning when they differ) and [Dma.ADC1.0.Mode] with [CIRCULAR] (an
    error when they differ), in that order and by equality of strings, an
    absent key reading as the empty string; it records nothing else.  When
    the first key is absent and the two others are right, exactly one error
    is recorded, and no warning. *)
Theorem C6_dma_check (self : IocValidator) :
  let rx := dict_get (config self) "Dma.USART2_RX.0.Mode" "" in
  let tx := dict_get (config self) "Dma.USART2_TX.1.Mode" "" in
  let adc := dict_get (config self) "Dma.ADC1.0.Mode" "" in
  (exists self', validate_dma_config REQUIREMENTS self = Ret tt self'
     /\ errors self' = errors self
          ++ when (bool_decide (rx <> "CIRCULAR"))
               (expected_found "UART RX DMA mode" "CIRCULAR" rx)
          ++ when (bool_decide (adc <> "CIRCULAR"))
               (expected_found "ADC DMA mode" "CIRCULAR" adc)
     /\ warnings self' = warnings self
          ++ when (bool_decide (tx <> "NORMAL"))
               (expected_found "UART TX DMA mode" "NORMAL" tx))
  /\ (config self !! "Dma.USART2_RX.0.Mode" = None ->
      config self !! "Dma.USART2_TX.1.Mode" = Some "NORMAL" ->
      config self !! "Dma.ADC1.0.Mode" = Some "CIRCULAR" ->
      exists self', validate_dma_config REQUIREMENTS self = Ret tt self'
        /\ errors self' = errors self
             ++ [expected_found "UART RX DMA mode" "CIRCULAR" ""]
        /\ warnings self' = warnings self).
Proof.
  intros rx tx adc.
  destruct (validate_dma_config_spec REQUIREMENTS self)
    as (s' & E & _ & _ & He & Hw).
  split; [exists s'; auto|].
  intros Hrx Htx Hadc. exists s'. split; [exact E|].
  unfold dict_get in He, Hw. rewrite Hrx, Hadc in He. rewrite Htx in Hw.
  rewrite He, Hw. cbn [default].
  rewrite bool_decide_eq_true_2 by discriminate.
  rewrite !bool_decide_eq_false_2 by (intros H; apply H; reflexivity).
  cbn. rewrite app_nil_r. auto.
Qed.

Lemma C6_dma_check_witness :
  exists self',
    validate_dma_config REQUIREMENTS
      (loaded "p.ioc" (<["Dma.USART2_TX.1.Mode" := "NORMAL"]>
                         (<["Dma.ADC1.0.Mode" := "CIRCULAR"]> ∅)))
    = Ret tt self'
    /\ errors self' = [expected_found "UART RX DMA mode" "CIRCULAR" ""]
    /\ warnings self' = [].
Proof.
  apply (C6_dma_check
           (loaded "p.ioc" (<["Dma.USART2_TX.1.Mode" := "NORMAL"]>
                              (<["Dma.ADC1.0.Mode" := "CIRCULAR"]> ∅))));
    vm_compute; reflexivity.
Defined.

(** C7: the CAN check records no error.  When [CAN1.Mode] is empty or
    absent it records the one warning that CAN1 is not enabled and prints
    its heading only: neither [CAN1.Prescaler] nor [CAN1.NART] plays a
    part.  Otherwise [CAN1.Prescaler] is printed when it is not empty and
    never gives a finding, [CAN1.NART] equal to [DISABLE] gives no finding,
    and any other value of it, the empty one included, gives exactly one
    warning, which names the value. *)
Theorem C7_can_check (self : IocValidator) :
  let mode := dict_get (config self) "CAN1.Mode" "" in
  let prescaler := dict_get (config self) "CAN1.Prescaler" "" in
  let nart := dict_get (config self) "CAN1.NART" "" in
  exists self', validate_can_config REQUIREMENTS self = Ret tt self'
    /\ errors self' = errors self
    /\ warnings self' = warnings self
         ++ (if decide (mode = "") then [can_not_enabled]
             else if decide (nart = "DISABLE") then []
             else [[Lit "CAN auto-retransmit should be enabled (NART=DISABLE), found NART=";
                    Lit nart]])
    /\ stdout self' = stdout self
         ++ [[Lit (Str.nl +:+ "[CAN Configuration]")]]
         ++ (if decide (mode = "") then []
             else
               when (bool_decide (prescaler <> ""))
                 [Lit "  "; tick; Lit " CAN prescaler configured: ";
                  Lit prescaler]
               ++ when (bool_decide (nart = "DISABLE"))
                    [Lit "  "; tick;
                     Lit " CAN auto-retransmit: ENABLED (NART=DISABLE)"]).
Proof.
  intros mode prescaler nart.
  destruct (validate_can_config_spec REQUIREMENTS self)
    as (s' & E & _ & _ & He & Hw & Ho).
  exists s'. split; [exact E|]. split; [exact He|]. split; [|exact Ho].
  rewrite Hw. f_equal. fold mode nart.
  destruct (decide (mode = "")); [reflexivity|].
  destruct (decide (nart = "DISABLE"));
    [rewrite bool_decide_eq_false_2 by tauto
    |rewrite bool_decide_eq_true_2 by tauto]; reflexivity.
Qed.

(** C9: every check only appends findings, and a bounded number of them:
    the DMA check at most 2 errors and 1 warning, the interrupt check no
    error and at most 2 warnings, the clock check at most 1 error and 1
    warning, the CAN check no error and at most 1 warning, the
    code-generation check at most 1 error and 1 warning.  A whole run, on
    any file, whether it ends or is cut short by an exception, records at
    most 4 errors and 6 warnings. *)
Theorem C9_findings_bounded (R : Requirements) (self : IocValidator)
  (path : string) (file : File) :
  grows 2 1 self (final (validate_dma_config R self))
  /\ grows 0 2 self (final (validate_interrupts R self))
  /\ grows 1 1 self (final (validate_clock_config R self))
  /\ grows 0 1 self (final (validate_can_config R self))
  /\ grows 1 1 self (final (validate_code_generation R self))
  /\ grows 4 6 self (final (run_validation R self))
  /\ length (errors (final (validate R path file))) <= 4
  /\ length (warnings (final (validate R path file))) <= 6.
Proof.
  split; [apply validate_dma_config_grows|].
  split; [apply validate_interrupts_grows|].
  split; [apply validate_clock_config_grows|].
  split; [apply validate_can_config_grows|].
  split; [apply validate_code_generation_grows|].
  split; [apply run_validation_grows|].
  apply validate_bounds.
Qed.

Section Clean.

Lemma dict_get_Some cfg k d v : cfg !! k = Some v -> dict_get cfg k d = v.
Proof. unfold dict_get. intros ->. reflexivity. Qed.

Lemma dict_get_None cfg k d : cfg !! k = None -> dict_get cfg k d = d.
Proof. unfold dict_get. intros ->. reflexivity. Qed.

(** On a mapping that meets the rulebook the five checks return and
    record nothing. *)
Lemma run_checks_clean s :
  meets_rulebook (config s) ->
  exists s5, run_checks REQUIREMENTS s = Ret tt s5
    /\ config s5 = config s /\ errors s5 = errors s
    /\ warnings s5 = warnings s.
Proof.
  intros (Hrx & Htx & Hadc & Hpre & Hsub & (v1 & f1 & Hv1 & Hf1 & Hr1)
          & (v2 & f2 & Hv2 & Hf2 & Hr2) & (mode & Hmode & Hne) & Hnart
          & Hkeep & Hdel).
  pose proof FLOAT_LIMIT_large as FL.
  unfold run_checks, mbind, M_bind.
  destruct (validate_dma_config_spec REQUIREMENTS s)
    as (s1 & -> & C1 & _ & E1 & W1).
  rewrite (dict_get_Some _ _ _ _ Hrx), (dict_get_Some _ _ _ _ Hadc) in E1.
  rewrite (dict_get_Some _ _ _ _ Htx) in W1.
  destruct (validate_interrupts_spec REQUIREMENTS s1)
    as (s2 & -> & C2 & _ & E2 & W2).
  rewrite C1, (dict_get_Some _ _ _ _ Hpre), (dict_get_Some _ _ _ _ Hsub)
    in W2.
  destruct (validate_clock_config_spec s2 f1 f2)
    as (s3 & -> & C3 & _ & E3 & W3).
  { rewrite C2, C1, (dict_get_Some _ _ _ _ Hv1). exact Hf1. }
  { rewrite C2, C1, (dict_get_Some _ _ _ _ Hv2). exact Hf2. }
  { lia. }
  { lia. }
  destruct (validate_can_config_spec REQUIREMENTS s3)
    as (s4 & -> & C4 & _ & E4 & W4 & _).
  rewrite C3, C2, C1, (dict_get_Some _ _ _ _ Hmode),
    (dict_get_Some _ _ _ _ Hnart) in W4.
  destruct (validate_code_generation_spec REQUIREMENTS s4)
    as (s5 & -> & C5 & _ & E5 & W5).
  rewrite C4, C3, C2, C1, (dict_get_Some _ _ _ _ Hkeep) in E5.
  rewrite C4, C3, C2, C1 in W5.
  exists s5. split; [reflexivity|].
  split; [rewrite C5, C4, C3, C2, C1; reflexivity|].
  rewrite bool_decide_eq_false_2 in E3 by tauto.
  rewrite bool_decide_eq_false_2 in W3 by tauto.
  rewrite (bool_decide_eq_false_2 (_ = "true")) in W5.
  2:{ unfold dict_get.
      destruct (config s !! "ProjectManager.DeletePrevious") as [d|];
        cbn; [congruence|discriminate]. }
  destruct (decide (mode = "")) as [?|_]; [contradiction|].
  cbn in E1, W1, W2, E3, W3, W4, E5, W5.
  rewrite !app_nil_r in *.
  rewrite E5, E4, E3, E2, E1, W5, W4, W3, W2, W1. auto.
Qed.

End Clean.

(** C1: when the mapping loaded from the file gives every rulebook key
    its expected value (the two clock values being numbers in their ranges,
    [CAN1.Mode] any non-empty value, [ProjectManager.DeletePrevious]
    anything but [true]), the run returns a pass with no error and no
    warning, and the process exits with status 0. *)
Theorem C1_expected_config_passes (prog path : string) (fs : string -> File)
  (text : string) :
  fs path = Readable text ->
  meets_rulebook (load_text text) ->
  exists self,
    validate REQUIREMENTS path (fs path) = Ret true self
    /\ errors self = [] /\ warnings self = []
    /\ exit_code REQUIREMENTS [prog; path] fs = 0%Z.
Proof.
  intros Hfs Hm.
  destruct (run_checks_clean (after_header (loaded path (load_text text))) Hm)
    as (s5 & Hc & _ & He & Hw).
  destruct (run_validation_returns REQUIREMENTS _ _ Hc)
    as (sf & Hrun & _ & Hef & Hwf).
  cbn in He, Hw. rewrite He in Hrun. cbn in Hrun.
  exists sf. rewrite Hfs, validate_readable.
  split; [exact Hrun|].
  split; [rewrite Hef; exact He|]. split; [rewrite Hwf; exact Hw|].
  rewrite exit_code_cases, Hfs, validate_readable, Hrun, Hef, He.
  reflexivity.
Qed.

Lemma sample_ok_meets_rulebook : meets_rulebook (load_text sample_ok).
Proof.
  unfold meets_rulebook.
  do 5 (split; [vm_compute; reflexivity|]).
  split.
  { exists "42000000", 42000000%Z.
    split; [vm_compute; reflexivity|].
    split; [vm_compute; reflexivity|]. lia. }
  split.
  { exists "84000000", 84000000%Z.
    split; [vm_compute; reflexivity|].
    split; [vm_compute; reflexivity|]. lia. }
  split.
  { exists "NORMAL". split; [vm_compute; reflexivity|discriminate]. }
  do 2 (split; [vm_compute; reflexivity|]).
  vm_compute. discriminate.
Defined.

Lemma C1_expected_config_witness :
  exists self,
    validate REQUIREMENTS "board.ioc" (Readable sample_ok) = Ret true self
    /\ errors self = [] /\ warnings self = []
    /\ exit_code REQUIREMENTS ["validate"; "board.ioc"]
         (fun _ => Readable sample_ok) = 0%Z.
Proof.
  apply (C1_expected_config_passes "validate" "board.ioc"
           (fun _ => Readable sample_ok) sample_ok eq_refl
           sample_ok_meets_rulebook).
Defined.

(** C2: the exit status depends on the errors and on the way the run
    failed only.  It is 0 exactly when the run went to its end with no
    error recorded (warnings play no part); it is 1 when an error was
    recorded, when the file does not exist, and when [sys.argv] does not
    hold exactly one argument after the program name; it is 2 when any
    other exception ended the run. *)
Theorem C2_exit_code (argv : list string) (fs : string -> File) :
  exit_code REQUIREMENTS argv fs =
    match argv with
    | [_; path] =>
        match validate REQUIREMENTS path (fs path) with
        | Ret _ self => if is_nil (errors self) then 0 else 1
        | Raise FileNotFoundError _ => 1
        | Raise _ _ => 2
        end
    | _ => 1
    end%Z
  /\ (exit_code REQUIREMENTS argv fs = 0%Z <->
      exists prog path b self,
        argv = [prog; path]
        /\ validate REQUIREMENTS path (fs path) = Ret b self
        /\ errors self = [])
  /\ (length argv <> 2 -> exit_code REQUIREMENTS argv fs = 1%Z)
  /\ (forall prog path,
         argv = [prog; path] -> fs path = Missing ->
         exit_code REQUIREMENTS argv fs = 1%Z)
  /\ (forall prog path b self,
         argv = [prog; path] ->
         validate REQUIREMENTS path (fs path) = Ret b self ->
         errors self <> [] ->
         exit_code REQUIREMENTS argv fs = 1%Z)
  /\ (forall prog path e self,
         argv = [prog; path] ->
         validate REQUIREMENTS path (fs path) = Raise e self ->
         e <> FileNotFoundError ->
         exit_code REQUIREMENTS argv fs = 2%Z).
Proof.
  split; [apply exit_code_cases|].
  rewrite exit_code_cases. split.
  { split.
    - destruct argv as [|prog [|path [|c l]]]; try discriminate.
      destruct (validate REQUIREMENTS path (fs path)) as [b s|e s] eqn:E.
      + destruct (errors s) eqn:He; [|discriminate].
        intros _. exists prog, path, b, s. auto.
      + destruct e; discriminate.
    - intros (prog & path & b & s & -> & -> & ->). reflexivity. }
  split.
  { destruct argv as [|prog [|path [|c l]]]; try reflexivity.
    intros H. contradiction H. reflexivity. }
  split.
  { intros prog path -> ->. rewrite validate_missing. reflexivity. }
  split.
  { intros prog path b s -> -> H. destruct (errors s); [contradiction|].
    reflexivity. }
  intros prog path e s -> -> H. destruct e; [contradiction| |]; reflexivity.
Qed.

Lemma C2_exit_code_witness :
  exit_code REQUIREMENTS ["validate"] (fun _ => Readable sample_ok) = 1%Z
  /\ exit_code REQUIREMENTS ["validate"; "none.ioc"] (fun _ => Missing) = 1%Z
  /\ exit_code REQUIREMENTS ["validate"; "dir"] (fun _ => Unreadable) = 2%Z.
Proof.
  split; [|split].
  - apply (C2_exit_code ["validate"] (fun _ => Readable sample_ok)).
    cbn. lia.
  - apply (C2_exit_code ["validate"; "none.ioc"] (fun _ => Missing)
             ) with (prog := "validate") (path := "none.ioc"); reflexivity.
  - apply (C2_exit_code ["validate"; "dir"] (fun _ => Unreadable)
             ) with (prog := "validate") (path := "dir") (e := OtherError)
                    (self := new_validator "dir");
      [reflexivity | reflexivity | discriminate].
Defined.

Section Unparsable.

Lemma is_nil_app_cons {A} (l l' : list A) x : is_nil (l ++ x :: l') = false.
Proof. destruct l; reflexivity. Qed.

(** With a clock value that is no integer, the five checks all return:
    the clock check records its one error, the four others what they
    record on any mapping. *)
Lemma run_checks_unparsable s :
  clock_unparsable (config s) ->
  exists s1 s2 s3 s4 s5,
    validate_dma_config REQUIREMENTS s = Ret tt s1
    /\ errors s1 = errors s ++ dma_errors (config s)
    /\ warnings s1 = warnings s ++ dma_warnings (config s)
    /\ validate_interrupts REQUIREMENTS s1 = Ret tt s2
    /\ errors s2 = errors s1
    /\ warnings s2 = warnings s1 ++ interrupt_warnings (config s)
    /\ validate_clock_config REQUIREMENTS s2 = Ret tt s3
    /\ errors s3 = errors s2 ++ [parse_failed]
    /\ warnings s3 = warnings s2
    /\ validate_can_config REQUIREMENTS s3 = Ret tt s4
    /\ errors s4 = errors s3
    /\ warnings s4 = warnings s3 ++ can_warnings (config s)
    /\ validate_code_generation REQUIREMENTS s4 = Ret tt s5
    /\ errors s5 = errors s4 ++ codegen_errors (config s)
    /\ warnings s5 = warnings s4 ++ codegen_warnings (config s)
    /\ run_checks REQUIREMENTS s = Ret tt s5
    /\ is_nil (errors s5) = false.
Proof.
  intros Hu.
  destruct (validate_dma_config_spec REQUIREMENTS s)
    as (s1 & H1 & C1 & _ & E1 & W1).
  destruct (validate_interrupts_spec REQUIREMENTS s1)
    as (s2 & H2 & C2 & _ & E2 & W2).
  rewrite C1 in W2.
  assert (clock_unparsable (config s2)) as Hu2 by (rewrite C2, C1; auto).
  pose proof (validate_clock_config_unparsable REQUIREMENTS s2 Hu2) as H3.
  set (s3 := {| ioc_path := ioc_path s2; config := config s2;
                errors := errors s2 ++ [parse_failed];
                warnings := warnings s2;
                stdout := stdout s2
                  ++ [[Lit (Str.nl +:+ "[Clock Configuration]")]];
                lookups := lookups s2
                  ++ answered (config s2) clock_calls |})
    in H3.
  destruct (validate_can_config_spec REQUIREMENTS s3)
    as (s4 & H4 & C4 & _ & E4 & W4 & _).
  change (config s3) with (config s2) in W4, C4. rewrite C2, C1 in W4.
  destruct (validate_code_generation_spec REQUIREMENTS s4)
    as (s5 & H5 & _ & _ & E5 & W5).
  rewrite C4, C2, C1 in E5, W5.
  exists s1, s2, s3, s4, s5.
  split; [exact H1|]. split; [exact E1|]. split; [exact W1|].
  split; [exact H2|]. split; [exact E2|]. split; [exact W2|].
  split; [exact H3|]. split; [reflexivity|]. split; [reflexivity|].
  split; [exact H4|]. split; [exact E4|]. split; [exact W4|].
  split; [exact H5|]. split; [exact E5|]. split; [exact W5|].
  split.
  - unfold run_checks, mbind, M_bind. rewrite H1, H2, H3, H4. exact H5.
  - rewrite E5, E4. cbn [errors s3]. rewrite <- app_assoc.
    apply is_nil_app_cons.
Qed.

End Unparsable.

(** C4: when [RCC.APB1Freq_Value] or [RCC.APB2Freq_Value] (read with the
    default [0]) is no integer, the clock check records the one error
    that the clock frequencies could not be parsed, records nothing else
    and returns.  In a run the two checks before it and the two after it
    return as well, each from the object the previous one left, and each
    records exactly the findings it records on this mapping in any run:
    the findings of the run are those of the DMA, interrupt, CAN and
    code-generation checks with the one parse error in the place of the
    clock findings.  The run reports and returns a failure, and the
    process exits with status 1: no exception leaves the run. *)
Theorem C4_unparsable_clock (cfg : gmap string string) :
  clock_unparsable cfg ->
  (forall self, config self = cfg ->
     validate_clock_config REQUIREMENTS self =
     Ret tt {| ioc_path := ioc_path self; config := config self;
               errors := errors self ++ [parse_failed];
               warnings := warnings self;
               stdout := stdout self
                 ++ [[Lit (Str.nl +:+ "[Clock Configuration]")]];
               lookups := lookups self
                 ++ answered (config self) clock_calls |})
  /\ (forall self, config self = cfg ->
      exists s1 s2 s3 s4 s5 sf,
        validate_dma_config REQUIREMENTS (after_header self) = Ret tt s1
        /\ errors s1 = errors self ++ dma_errors cfg
        /\ warnings s1 = warnings self ++ dma_warnings cfg
        /\ validate_interrupts REQUIREMENTS s1 = Ret tt s2
        /\ errors s2 = errors s1
        /\ warnings s2 = warnings s1 ++ interrupt_warnings cfg
        /\ validate_clock_config REQUIREMENTS s2 = Ret tt s3
        /\ errors s3 = errors s2 ++ [parse_failed]
        /\ warnings s3 = warnings s2
        /\ validate_can_config REQUIREMENTS s3 = Ret tt s4
        /\ errors s4 = errors s3
        /\ warnings s4 = warnings s3 ++ can_warnings cfg
        /\ validate_code_generation REQUIREMENTS s4 = Ret tt s5
        /\ errors s5 = errors s4 ++ codegen_errors cfg
        /\ warnings s5 = warnings s4 ++ codegen_warnings cfg
        /\ run_validation REQUIREMENTS self = Ret false sf
        /\ errors sf = errors s5 /\ warnings sf = warnings s5)
  /\ (forall self, config self = cfg ->
      exists sf,
        run_validation REQUIREMENTS self = Ret false sf
        /\ errors sf = errors self ++ dma_errors cfg ++ [parse_failed]
                         ++ codegen_errors cfg
        /\ warnings sf = warnings self ++ dma_warnings cfg
                           ++ interrupt_warnings cfg ++ can_warnings cfg
                           ++ codegen_warnings cfg)
  /\ (forall prog path fs text,
        fs path = Readable text -> load_text text = cfg ->
        exit_code REQUIREMENTS [prog; path] fs = 1%Z).
Proof.
  intros Hu.
  assert (forall self, config self = cfg ->
            exists s1 s2 s3 s4 s5 sf,
              validate_dma_config REQUIREMENTS (after_header self) = Ret tt s1
              /\ errors s1 = errors self ++ dma_errors cfg
              /\ warnings s1 = warnings self ++ dma_warnings cfg
              /\ validate_interrupts REQUIREMENTS s1 = Ret tt s2
              /\ errors s2 = errors s1
              /\ warnings s2 = warnings s1 ++ interrupt_warnings cfg
              /\ validate_clock_config REQUIREMENTS s2 = Ret tt s3
              /\ errors s3 = errors s2 ++ [parse_failed]
              /\ warnings s3 = warnings s2
              /\ validate_can_config REQUIREMENTS s3 = Ret tt s4
              /\ errors s4 = errors s3
              /\ warnings s4 = warnings s3 ++ can_warnings cfg
              /\ validate_code_generation REQUIREMENTS s4 = Ret tt s5
              /\ errors s5 = errors s4 ++ codegen_errors cfg
              /\ warnings s5 = warnings s4 ++ codegen_warnings cfg
              /\ run_validation REQUIREMENTS self = Ret false sf
              /\ errors sf = errors s5 /\ warnings sf = warnings s5) as Hrun.
  { intros self Hc.
    destruct (run_checks_unparsable (after_header self))
      as (s1 & s2 & s3 & s4 & s5 & H1 & E1 & W1 & H2 & E2 & W2 & H3 & E3
          & W3 & H4 & E4 & W4 & H5 & E5 & W5 & Hc5 & Hn).
    { destruct (after_header_same self) as (-> & _). rewrite Hc. exact Hu. }
    destruct (after_header_same self) as (Ca & _ & Ea & Wa).
    rewrite Ca, Hc in *. rewrite Ea in E1. rewrite Wa in W1.
    destruct (run_validation_returns REQUIREMENTS self s5 Hc5)
      as (sf & Hr & _ & Ef & Wf).
    rewrite Hn in Hr. exists s1, s2, s3, s4, s5, sf.
    repeat (split; [assumption|]). assumption. }
  split.
  { intros self Hc. apply validate_clock_config_unparsable.
    rewrite Hc. exact Hu. }
  split; [exact Hrun|].
  split.
  { intros self Hc.
    destruct (Hrun self Hc)
      as (s1 & s2 & s3 & s4 & s5 & sf & _ & E1 & W1 & _ & E2 & W2 & _ & E3
          & W3 & _ & E4 & W4 & _ & E5 & W5 & Hr & Ef & Wf).
    exists sf. split; [exact Hr|].
    rewrite Ef, E5, E4, E3, E2, E1, Wf, W5, W4, W3, W2, W1.
    rewrite <- !app_assoc. split; reflexivity. }
  intros prog path fs text Hfs Hl.
  destruct (Hrun (loaded path (load_text text)) Hl)
    as (s1 & s2 & s3 & s4 & s5 & sf & _ & _ & _ & _ & _ & _ & _ & _ & _
        & _ & _ & _ & _ & _ & _ & Hr & _).
  unfold exit_code, main. rewrite Hfs, validate_readable, Hr. reflexivity.
Qed.

Lemma sample_abc_unparsable : clock_unparsable (load_text sample_abc).
Proof. left. vm_compute. reflexivity. Defined.

Lemma only_abc_unparsable :
  clock_unparsable (load_text "RCC.APB1Freq_Value=abc").
Proof. left. vm_compute. reflexivity. Defined.

Lemma C4_unparsable_clock_witness :
  (exists sf,
      run_validation REQUIREMENTS
        (loaded "board.ioc" (load_text "RCC.APB1Freq_Value=abc"))
      = Ret false sf
      /\ errors sf =
         [expected_found "UART RX DMA mode" "CIRCULAR" "";
          expected_found "ADC DMA mode" "CIRCULAR" "";
          parse_failed; keep_user_code_msg]
      /\ warnings sf =
         [expected_found "UART TX DMA mode" "NORMAL" "";
          expected_found "DMA preemption priority" "5" "";
          expected_found "DMA sub-priority" "0" "";
          can_not_enabled])
  /\ exit_code REQUIREMENTS ["validate"; "board.ioc"]
       (fun _ => Readable sample_abc) = 1%Z.
Proof.
  destruct (C4_unparsable_clock (load_text "RCC.APB1Freq_Value=abc")
              only_abc_unparsable) as (_ & _ & Hsum & _).
  destruct (C4_unparsable_clock (load_text sample_abc)
              sample_abc_unparsable) as (_ & _ & _ & Hexit).
  split.
  - destruct (Hsum (loaded "board.ioc"
                      (load_text "RCC.APB1Freq_Value=abc")) eq_refl)
      as (sf & Hr & He & Hw).
    exists sf. split; [exact Hr|]. rewrite He, Hw.
    split; vm_compute; reflexivity.
  - apply Hexit with (text := sample_abc); reflexivity.
Defined.

Section Unread.

Lemma exit_code_outcome R prog path fs :
  exit_code R [prog; path] fs
  = exit_of_outcome (outcome (validate R path (fs path))).
Proof.
  rewrite exit_code_cases.
  destruct (validate R path (fs path)) as [b s|e s]; reflexivity.
Qed.

Lemma main_entries R R' argv fs :
  read_entries R = read_entries R' -> main R argv fs = main R' argv fs.
Proof.
  intros H. unfold main, validate, mbind, M_bind.
  destruct argv as [|prog [|path [|c l]]]; try reflexivity.
  destruct (load_config (fs path) (new_validator path)); [|reflexivity].
  rewrite (run_validation_entries R R' _ H). reflexivity.
Qed.

(** Writing a key no finding depends on leaves the reads as they were. *)
Lemma same_reads_insert cfg key v :
  key ∉ (finding_lookups.*1) -> key <> "CAN1.Mode" ->
  same_reads (<[key := v]> cfg) cfg.
Proof.
  intros Hk Hm. split.
  - apply Forall_forall. intros [k d] Hin. cbn. unfold dict_get.
    rewrite lookup_insert_ne; [reflexivity|].
    intros ->. apply Hk. apply list_elem_of_fmap. exists (k, d). auto.
  - unfold dict_get. rewrite lookup_insert_ne by auto. reflexivity.
Qed.

(** Two non-empty modes are read alike. *)
Lemma same_reads_mode cfg m1 m2 :
  m1 <> "" -> m2 <> "" ->
  same_reads (<["CAN1.Mode" := m1]> cfg) (<["CAN1.Mode" := m2]> cfg).
Proof.
  intros H1 H2. split.
  - apply Forall_forall. intros [k d] Hin. cbn. unfold dict_get.
    assert (k <> "CAN1.Mode") as Hne.
    { assert ("CAN1.Mode" ∉ finding_lookups.*1) as Hnot by compute_done.
      intros ->. apply Hnot. apply list_elem_of_fmap.
      exists ("CAN1.Mode", d). auto. }
    rewrite !lookup_insert_ne by auto. reflexivity.
  - unfold dict_get, truthy. rewrite !lookup_insert_eq. cbn.
    destruct (String.eqb_spec m1 ""), (String.eqb_spec m2 "");
      try contradiction; reflexivity.
Qed.

(** An absent key reads as its default: writing the default changes no
    read. *)
Lemma same_reads_default cfg key :
  cfg !! key = None ->
  same_reads
    (<[key := if decide (key = "RCC.APB1Freq_Value"
                         \/ key = "RCC.APB2Freq_Value")
              then "0" else ""]> cfg) cfg.
Proof.
  intros Hnone. split.
  - unfold finding_lookups.
    repeat (apply Forall_cons; split;
            [cbn [fst snd]; unfold dict_get;
             match goal with
             | |- default _ (_ !! ?k) = _ =>
                 destruct (decide (key = k)) as [->|Hne];
                 [rewrite lookup_insert_eq, Hnone; reflexivity
                 |rewrite lookup_insert_ne by auto; reflexivity]
             end|]).
    apply Forall_nil. exact I.
  - unfold dict_get.
    destruct (decide (key = "CAN1.Mode")) as [->|Hne].
    + rewrite lookup_insert_eq, Hnone. reflexivity.
    + rewrite lookup_insert_ne by auto. reflexivity.
Qed.

End Unread.

(** C3, as the specification states it, fails: the lookups of the clock
    check pass the default [0], not the empty string.  On the empty
    mapping [RCC.APB1Freq_Value] is absent, its lookup yields [0], and the
    clock check records that APB1 is out of range at 0 MHz; had the key
    read as the empty string, as it does when it is present with an empty
    value, the check would have recorded the parse failure instead. *)
Lemma C3_clock_default_counterexample :
  (∅ : gmap string string) !! "RCC.APB1Freq_Value" = None
  /\ lookups (final (validate_clock_config REQUIREMENTS
                       (loaded "board.ioc" ∅)))
     = [("RCC.APB1Freq_Value", "0", "0"); ("RCC.APB2Freq_Value", "0", "0")]
  /\ "0" <> ""
  /\ errors (final (validate_clock_config REQUIREMENTS
                      (loaded "board.ioc" ∅))) = [apb1_msg 0]
  /\ errors (final (validate_clock_config REQUIREMENTS
                      (loaded "board.ioc"
                         (<["RCC.APB1Freq_Value" := ""]> ∅))))
     = [parse_failed]
  /\ ~ (forall (cfg : gmap string string) key,
          cfg !! key = None ->
          outcome (run_validation REQUIREMENTS
                     (loaded "board.ioc" (<[key := ""]> cfg)))
          = outcome (run_validation REQUIREMENTS (loaded "board.ioc" cfg))).
Proof.
  split; [reflexivity|]. split; [vm_compute; reflexivity|].
  split; [discriminate|].
  split; [vm_compute; reflexivity|]. split; [vm_compute; reflexivity|].
  intros H. specialize (H ∅ "RCC.APB1Freq_Value" eq_refl).
  vm_compute in H. discriminate H.
Qed.

(** ** The lookups of a run *)

Section Lookups.

Lemma answered_app cfg l1 l2 :
  answered cfg (l1 ++ l2) = answered cfg l1 ++ answered cfg l2.
Proof. apply fmap_app. Qed.

Lemma answers_bind {A B} (m : M A) (f : A -> M B) c1 c2 :
  answers m c1 -> (forall a, answers (f a) c2) ->
  answers (m ≫= f) (fun cfg => c1 cfg ++ c2 cfg).
Proof.
  intros Hm Hf self. unfold mbind, M_bind.
  destruct (Hm self) as (Cm & p & Lm & Pm & Rm).
  destruct (m self) as [a s1|e s1]; cbn in Cm, Lm.
  - destruct (Hf a s1) as (Cf & q & Lf & Pf & Rf).
    rewrite Cm in Cf, Pf, Rf.
    split; [exact Cf|]. exists (p ++ q).
    rewrite Lf, Lm, <- app_assoc, answered_app, (Rm a s1 eq_refl).
    split; [reflexivity|]. split; [apply prefix_app, Pf|].
    intros b s' H. rewrite (Rf b s' H). reflexivity.
  - split; [exact Cm|]. exists p. split; [exact Lm|].
    split; [|discriminate].
    rewrite answered_app. apply prefix_app_r, Pm.
Qed.

Lemma answers_ext {A} (m : M A) c c' :
  answers m c -> (forall cfg, c cfg = c' cfg) -> answers m c'.
Proof.
  intros H Hc self. rewrite <- Hc. apply H.
Qed.

Lemma answers_silent {A} (m : M A) :
  (forall self, config (final (m self)) = config self
                /\ lookups (final (m self)) = lookups self) ->
  answers m (fun _ => []).
Proof.
  intros H self. destruct (H self) as (C & L).
  split; [exact C|]. exists []. rewrite app_nil_r.
  split; [exact L|]. split; reflexivity.
Qed.

Ltac solve_answers :=
  split; [reflexivity|]; eexists;
  split; [cbn; rewrite <- ?app_assoc; reflexivity|];
  split; [reflexivity|]; intros; reflexivity.

Lemma validate_dma_config_answers R :
  answers (validate_dma_config R) (fun _ => dma_calls).
Proof.
  intros self. unfold validate_dma_config. unfold_m. explore; solve_answers.
Qed.

Lemma validate_interrupts_answers R :
  answers (validate_interrupts R) (fun _ => interrupt_calls).
Proof.
  intros self. unfold validate_interrupts. unfold_m. explore; solve_answers.
Qed.

Lemma validate_clock_config_answers R :
  answers (validate_clock_config R) (fun _ => clock_calls).
Proof.
  intros self. unfold validate_clock_config, true_div_1e6. unfold_m.
  explore; solve_answers.
Qed.

Lemma validate_code_generation_answers R :
  answers (validate_code_generation R) (fun _ => codegen_calls).
Proof.
  intros self. unfold validate_code_generation. unfold_m.
  explore; solve_answers.
Qed.

Lemma validate_can_config_answers R :
  answers (validate_can_config R) can_calls.
Proof.
  intros self. unfold validate_can_config, can_calls. unfold_m. cbn.
  destruct (decide (dict_get (config self) "CAN1.Mode" "" = "")) as [D|D].
  - assert (truthy (dict_get (config self) "CAN1.Mode" "") = false) as ->
      by (rewrite D; reflexivity).
    explore; solve_answers.
  - assert (truthy (dict_get (config self) "CAN1.Mode" "") = true) as ->.
    { unfold truthy. destruct (String.eqb_spec (dict_get (config self) "CAN1.Mode" "") "");
        [contradiction|].
      reflexivity. }
    explore; solve_answers.
Qed.

Lemma print_numbered_silent msgs : forall i s,
  exists s', print_numbered i msgs s = Ret tt s'
    /\ config s' = config s /\ lookups s' = lookups s.
Proof.
  induction msgs as [|msg msgs IH]; intros i s.
  - exists s. repeat split.
  - cbn [print_numbered]. unfold mbind, M_bind, print at 1.
    destruct (IH (S i)
                {| ioc_path := ioc_path s; config := config s;
                   errors := errors s; warnings := warnings s;
                   stdout := stdout s
                               ++ [[Lit "  "; Num i; Lit ". "] ++ msg];
                   lookups := lookups s |})
      as (s' & E & ? & ?).
    exists s'. split; [exact E|auto].
Qed.

Lemma report_answers : answers report (fun _ => []).
Proof.
  apply answers_silent. intros s. unfold report. unfold_m.
  repeat (cbn;
          match goal with
          | |- context [print_numbered ?i ?l ?st] =>
              destruct (print_numbered_silent l i st) as (? & -> & ? & ?)
          | |- context [if ?c then _ else _] =>
              lazymatch type of c with bool => destruct c eqn:? end
          end); cbn in *; split; congruence.
Qed.

Lemma print_header_answers : answers print_header (fun _ => []).
Proof. apply answers_silent. intros s. split; reflexivity. Qed.

Lemma run_checks_answers R : answers (run_checks R) validation_calls.
Proof.
  unfold run_checks.
  eapply answers_ext.
  { apply answers_bind; [apply validate_dma_config_answers|]. intros _.
    apply answers_bind; [apply validate_interrupts_answers|]. intros _.
    apply answers_bind; [apply validate_clock_config_answers|]. intros _.
    apply answers_bind; [apply validate_can_config_answers|]. intros _.
    apply validate_code_generation_answers. }
  intros cfg. reflexivity.
Qed.

Lemma run_validation_answers R : answers (run_validation R) validation_calls.
Proof.
  assert (answers (print_header ;; run_checks R ;; report) validation_calls)
    as H.
  { eapply answers_ext.
    { apply answers_bind; [apply print_header_answers|]. intros _.
      apply answers_bind; [apply run_checks_answers|]. intros _.
      apply report_answers. }
    intros cfg. cbn. rewrite app_nil_r. reflexivity. }
  intros self. specialize (H self).
  rewrite <- run_validation_stages in H. exact H.
Qed.

(** The default of every call of a run. *)
Lemma validation_calls_default cfg k d :
  (k, d) ∈ validation_calls cfg ->
  d = if decide (k = "RCC.APB1Freq_Value" \/ k = "RCC.APB2Freq_Value")
      then "0" else "".
Proof.
  unfold validation_calls, can_calls, dma_calls, interrupt_calls, clock_calls,
    codegen_calls.
  intros H.
  destruct (decide (dict_get cfg "CAN1.Mode" "" = "")); cbn in H;
    repeat match goal with
           | H : _ ∈ _ :: _ |- _ => apply elem_of_cons in H as [H|H]
           | H : _ ∈ [] |- _ => apply elem_of_nil in H; contradiction
           | H : (_, _) = (_, _) |- _ => injection H as -> ->
           end; reflexivity.
Qed.

Lemma answered_absent cfg calls k d v :
  (k, d, v) ∈ answered cfg calls -> cfg !! k = None ->
  v = d /\ (k, d) ∈ calls.
Proof.
  unfold answered. intros H Hn.
  apply list_elem_of_fmap in H as ([k' d'] & [= -> -> ->] & Hin). cbn.
  split; [apply dict_get_None, Hn|exact Hin].
Qed.

End Lookups.

(** The record of lookups changes nothing a run does. *)
Section Ghost.

Lemma set_lookups_eq s s' :
  set_lookups [] s' = set_lookups [] s -> s' = set_lookups (lookups s') s.
Proof.
  destruct s, s'. unfold set_lookups. cbn. intros [= -> -> -> -> ->].
  reflexivity.
Qed.

Lemma Ret_inj {A} (a a' : A) (s s' : IocValidator) :
  Ret a s = Ret a' s' -> a = a' /\ s = s'.
Proof. intros [= -> ->]. split; reflexivity. Qed.

Lemma Raise_inj {A B} e e' (s s' : IocValidator) :
  @Raise A e s = Raise e' s' -> @Raise B e s = Raise e' s'.
Proof. intros [= -> ->]. reflexivity. Qed.

Lemma bind_unobserved {A B} (m : M A) (f : A -> M B) :
  unobserved m -> (forall a, unobserved (f a)) -> unobserved (m ≫= f).
Proof.
  intros Hm Hf self l. unfold mbind, M_bind.
  specialize (Hm self l).
  destruct (m (set_lookups l self)) as [a s1|e s1],
           (m self) as [a' s2|e' s2]; cbn in Hm; try discriminate.
  - apply Ret_inj in Hm as (-> & Hs). rewrite (set_lookups_eq _ _ Hs).
    apply Hf.
  - exact (Raise_inj _ _ _ _ Hm).
Qed.

Ltac solve_unobserved :=
  intros self l; unfold_m; explore; reflexivity.

Lemma validate_dma_config_unobserved R : unobserved (validate_dma_config R).
Proof. unfold validate_dma_config. solve_unobserved. Qed.

Lemma validate_interrupts_unobserved R : unobserved (validate_interrupts R).
Proof. unfold validate_interrupts. solve_unobserved. Qed.

Lemma validate_clock_config_unobserved R :
  unobserved (validate_clock_config R).
Proof. unfold validate_clock_config, true_div_1e6. solve_unobserved. Qed.

Lemma validate_can_config_unobserved R : unobserved (validate_can_config R).
Proof. unfold validate_can_config. solve_unobserved. Qed.

Lemma validate_code_generation_unobserved R :
  unobserved (validate_code_generation R).
Proof. unfold validate_code_generation. solve_unobserved. Qed.

Lemma print_numbered_unobserved msgs : forall i,
  unobserved (print_numbered i msgs).
Proof.
  induction msgs as [|msg msgs IH]; intros i.
  - intros self l. reflexivity.
  - cbn [print_numbered]. apply bind_unobserved.
    + intros self l. reflexivity.
    + intros _. apply IH.
Qed.

Lemma report_unobserved : unobserved report.
Proof.
  unfold report.
  repeat first
    [ apply print_numbered_unobserved
    | apply bind_unobserved; [|intros ?]
    | match goal with
      | |- unobserved (if ?c then _ else _) => destruct c
      end
    | (intros self l; reflexivity) ].
Qed.

Lemma run_validation_unobserved R : unobserved (run_validation R).
Proof.
  assert (unobserved (print_header ;; run_checks R ;; report)) as H.
  { apply bind_unobserved; [intros self l; reflexivity|]. intros _.
    apply bind_unobserved; [|intros _; apply report_unobserved].
    unfold run_checks.
    apply bind_unobserved; [apply validate_dma_config_unobserved|]. intros _.
    apply bind_unobserved; [apply validate_interrupts_unobserved|]. intros _.
    apply bind_unobserved; [apply validate_clock_config_unobserved|].
    intros _.
    apply bind_unobserved; [apply validate_can_config_unobserved|]. intros _.
    apply validate_code_generation_unobserved. }
  intros self l. specialize (H self l).
  rewrite <- !run_validation_stages in H. exact H.
Qed.

End Ghost.

(** C3, amended: a lookup of a key that is absent from the mapping never
    fails and yields the default its call passes, and that default is the
    empty string for every key except [RCC.APB1Freq_Value] and
    [RCC.APB2Freq_Value], whose lookups pass [0].  The lookups a run
    performs are the calls of the five checks in order, up to the point
    where the run stops and all of them when it returns; each one of the
    absent key yields its default, [0] for the two clock keys and the
    empty string for any other.  The absent key is no finding of its own:
    result and findings of the run are those of the mapping that has the
    key with that default as its value. *)
Theorem C3_missing_key_default (path : string) (cfg : gmap string string)
  (key : string) :
  cfg !! key = None ->
  (forall dflt self,
      config self = cfg ->
      get_value key dflt self
      = Ret dflt (set_lookups (lookups self ++ [(key, dflt, dflt)]) self))
  /\ (forall self,
        config self = cfg ->
        exists performed,
          lookups (final (run_validation REQUIREMENTS self))
          = lookups self ++ performed
          /\ performed `prefix_of` answered cfg (validation_calls cfg)
          /\ (forall b sf,
                run_validation REQUIREMENTS self = Ret b sf ->
                performed = answered cfg (validation_calls cfg))
          /\ (forall dflt v,
                (key, dflt, v) ∈ performed ->
                v = dflt
                /\ dflt = if decide (key = "RCC.APB1Freq_Value"
                                     \/ key = "RCC.APB2Freq_Value")
                          then "0" else ""))
  /\ (key <> "RCC.APB1Freq_Value" -> key <> "RCC.APB2Freq_Value" ->
      outcome (run_validation REQUIREMENTS (loaded path (<[key := ""]> cfg)))
      = outcome (run_validation REQUIREMENTS (loaded path cfg)))
  /\ (key = "RCC.APB1Freq_Value" \/ key = "RCC.APB2Freq_Value" ->
      outcome (run_validation REQUIREMENTS (loaded path (<[key := "0"]> cfg)))
      = outcome (run_validation REQUIREMENTS (loaded path cfg))).
Proof.
  intros Hnone. pose proof (same_reads_default cfg key Hnone) as Hs.
  split.
  { intros dflt self Hc. unfold get_value, set_lookups.
    rewrite Hc, (dict_get_None _ _ _ Hnone). reflexivity. }
  split.
  { intros self Hc.
    destruct (run_validation_answers REQUIREMENTS self)
      as (_ & performed & L & P & Rt).
    rewrite Hc in P, Rt. exists performed.
    split; [exact L|]. split; [exact P|]. split; [exact Rt|].
    intros dflt v Hin.
    destruct P as (rest & P).
    assert ((key, dflt, v) ∈ answered cfg (validation_calls cfg)) as Hin'.
    { rewrite P. apply elem_of_app. left. exact Hin. }
    destruct (answered_absent _ _ _ _ _ Hin' Hnone) as (-> & Hc').
    split; [reflexivity|].
    apply (validation_calls_default cfg), Hc'. }
  split.
  - intros H1 H2. destruct (decide _) as [[?|?]|_] in Hs; try contradiction.
    apply run_validation_reads, Hs.
  - intros H. destruct (decide _) as [_|?] in Hs; [|contradiction].
    apply run_validation_reads, Hs.
Qed.

Lemma C3_missing_key_witness :
  (forall dflt v,
      ("RCC.APB1Freq_Value", dflt, v)
        ∈ lookups (final (run_validation REQUIREMENTS (loaded "board.ioc" ∅)))
      -> v = dflt /\ dflt = "0")
  /\ (forall dflt v,
      ("ProjectManager.KeepUserCode", dflt, v)
        ∈ lookups (final (run_validation REQUIREMENTS (loaded "board.ioc" ∅)))
      -> v = dflt /\ dflt = "")
  /\ outcome (run_validation REQUIREMENTS
             (loaded "board.ioc" (<["CAN1.NART" := ""]> ∅)))
     = outcome (run_validation REQUIREMENTS (loaded "board.ioc" ∅))
  /\ outcome (run_validation REQUIREMENTS
                (loaded "board.ioc" (<["RCC.APB1Freq_Value" := "0"]> ∅)))
     = outcome (run_validation REQUIREMENTS (loaded "board.ioc" ∅)).
Proof.
  destruct (C3_missing_key_default "board.ioc" ∅ "CAN1.NART"
              (lookup_empty _)) as (_ & _ & Hnart & _).
  destruct (C3_missing_key_default "board.ioc" ∅ "RCC.APB1Freq_Value"
              (lookup_empty _)) as (_ & Hclock1 & _ & Hclock).
  destruct (C3_missing_key_default "board.ioc" ∅
              "ProjectManager.KeepUserCode"
              (lookup_empty _)) as (_ & Hkeep & _ & _).
  split.
  { intros dflt v Hin.
    destruct (Hclock1 (loaded "board.ioc" ∅) eq_refl)
      as (performed & L & _ & _ & D).
    assert (lookups (final (run_validation REQUIREMENTS
                              (loaded "board.ioc" ∅))) = performed) as L'
      by exact L.
    rewrite L' in Hin. exact (D dflt v Hin). }
  split.
  { intros dflt v Hin.
    destruct (Hkeep (loaded "board.ioc" ∅) eq_refl)
      as (performed & L & _ & _ & D).
    assert (lookups (final (run_validation REQUIREMENTS
                              (loaded "board.ioc" ∅))) = performed) as L'
      by exact L.
    rewrite L' in Hin. exact (D dflt v Hin). }
  split.
  - apply Hnart; discriminate.
  - apply Hclock. left. reflexivity.
Defined.

Section Overflow.

(** A first clock value too large for a float ends the whole run with
    [OverflowError]. *)
Lemma run_validation_overflow s f1 f2 :
  py_int (dict_get (config s) "RCC.APB1Freq_Value" "0") = Some f1 ->
  py_int (dict_get (config s) "RCC.APB2Freq_Value" "0") = Some f2 ->
  (FLOAT_LIMIT <= Z.abs f1)%Z ->
  exists s', run_validation REQUIREMENTS s = Raise OverflowError s'.
Proof.
  intros P1 P2 L.
  destruct (validate_dma_config_spec REQUIREMENTS (after_header s))
    as (s1 & H1 & C1 & _).
  destruct (validate_interrupts_spec REQUIREMENTS s1)
    as (s2 & H2 & C2 & _).
  destruct (validate_clock_config_overflow s2 f1 f2) as (s3 & H3 & _).
  { rewrite C2, C1. exact P1. }
  { rewrite C2, C1. exact P2. }
  { exact L. }
  exists s3. apply run_validation_raises.
  unfold run_checks, mbind, M_bind. rewrite H1, H2, H3. reflexivity.
Qed.

End Overflow.

(** C8, where the code departs from it: with [RCC.APB1Freq_Value] a one
    followed by 400 zeros both clock values are integers and APB1 is out
    of its range, yet the clock check records no error: rendering the
    value in MHz converts it to a float, which raises [OverflowError];
    the exception leaves the check and the run, and the process exits
    with status 2. *)
Theorem C8_huge_clock_value_aborts :
  py_int (dict_get (load_text sample_huge) "RCC.APB1Freq_Value" "0")
  = Some (10 ^ 400)%Z
  /\ py_int (dict_get (load_text sample_huge) "RCC.APB2Freq_Value" "0")
     = Some 84000000%Z
  /\ ~ (42000000 <= 10 ^ 400 <= 50000000)%Z
  /\ (exists self',
         validate_clock_config REQUIREMENTS
           (loaded "board.ioc" (load_text sample_huge))
         = Raise OverflowError self'
         /\ errors self' = [] /\ warnings self' = [])
  /\ (exists self',
         validate REQUIREMENTS "board.ioc" (Readable sample_huge)
         = Raise OverflowError self')
  /\ exit_code REQUIREMENTS ["validate"; "board.ioc"]
       (fun _ => Readable sample_huge) = 2%Z.
Proof.
  assert (py_int (dict_get (load_text sample_huge) "RCC.APB1Freq_Value" "0")
          = Some (10 ^ 400)%Z) as P1 by (vm_compute; reflexivity).
  assert (py_int (dict_get (load_text sample_huge) "RCC.APB2Freq_Value" "0")
          = Some 84000000%Z) as P2 by (vm_compute; reflexivity).
  assert (FLOAT_LIMIT <= Z.abs (10 ^ 400))%Z as L
    by (vm_compute; discriminate).
  split; [exact P1|]. split; [exact P2|].
  split.
  { intros [_ H]. revert H. apply Z.lt_nge. vm_compute. reflexivity. }
  split.
  { apply (validate_clock_config_overflow
             (loaded "board.ioc" (load_text sample_huge)) _ _ P1 P2 L). }
  destruct (run_validation_overflow
              (loaded "board.ioc" (load_text sample_huge)) _ _ P1 P2 L)
    as (s' & Hr).
  split.
  { exists s'. rewrite validate_readable. exact Hr. }
  rewrite exit_code_cases, validate_readable, Hr. reflexivity.
Qed.

(** C10: what no check reads has no effect.  With any non-empty
    [CAN1.Mode] the CAN check takes CAN as enabled and records nothing
    about the mode: its only possible finding is the warning about
    [CAN1.NART]; two runs that differ in the non-empty mode only have the
    same result, errors and warnings.  The same holds when a key outside
    the [finding_lookups] is given any value.  Of the rulebook the checks
    read the [read_entries] only: with any table that agrees with
    [REQUIREMENTS] on them (whatever its [MODE], [BAUDRATE],
    [AUTO_RETRANSMIT], priorities, [SPI_MODE] and peripheral interrupt
    entries) the program prints the same and exits alike.  And two files
    whose mappings are read alike give the same exit status. *)
Theorem C10_unread_settings (path : string) (cfg : gmap string string) :
  (forall self mode,
      config self !! "CAN1.Mode" = Some mode -> mode <> "" ->
      exists self',
        validate_can_config REQUIREMENTS self = Ret tt self'
        /\ errors self' = errors self
        /\ warnings self' = warnings self
             ++ when (bool_decide
                        (dict_get (config self) "CAN1.NART" "" <> "DISABLE"))
                  (nart_msg (dict_get (config self) "CAN1.NART" "")))
  /\ (forall m1 m2,
         m1 <> "" -> m2 <> "" ->
         outcome (run_validation REQUIREMENTS
                    (loaded path (<["CAN1.Mode" := m1]> cfg)))
         = outcome (run_validation REQUIREMENTS
                      (loaded path (<["CAN1.Mode" := m2]> cfg))))
  /\ (forall key v,
         key ∉ (finding_lookups.*1) -> key <> "CAN1.Mode" ->
         outcome (run_validation REQUIREMENTS
                    (loaded path (<[key := v]> cfg)))
         = outcome (run_validation REQUIREMENTS (loaded path cfg)))
  /\ (forall R argv fs,
         read_entries R = read_entries REQUIREMENTS ->
         main R argv fs = main REQUIREMENTS argv fs)
  /\ (forall prog fs1 fs2 t1 t2,
         fs1 path = Readable t1 -> fs2 path = Readable t2 ->
         same_reads (load_text t1) (load_text t2) ->
         exit_code REQUIREMENTS [prog; path] fs1
         = exit_code REQUIREMENTS [prog; path] fs2).
Proof.
  split.
  { intros self mode Hmode Hne.
    destruct (validate_can_config_spec REQUIREMENTS self)
      as (s' & E & _ & _ & He & Hw & _).
    exists s'. split; [exact E|]. split; [exact He|].
    rewrite (dict_get_Some _ _ _ _ Hmode) in Hw.
    destruct (decide (mode = "")) as [?|_] in Hw; [contradiction|].
    exact Hw. }
  split.
  { intros m1 m2 H1 H2. apply run_validation_reads, same_reads_mode; auto. }
  split.
  { intros key v Hk Hm. apply run_validation_reads, same_reads_insert; auto. }
  split.
  { intros R argv fs H. apply main_entries, H. }
  intros prog fs1 fs2 t1 t2 H1 H2 Hs.
  rewrite !exit_code_outcome, H1, H2, !validate_readable.
  f_equal. apply run_validation_reads, Hs.
Qed.

Lemma C10_unread_settings_witness :
  outcome (run_validation REQUIREMENTS
             (loaded "board.ioc"
                (<["CAN1.Mode" := "LOOPBACK"]> (load_text sample_ok))))
  = outcome (run_validation REQUIREMENTS
               (loaded "board.ioc"
                  (<["CAN1.Mode" := "NORMAL"]> (load_text sample_ok))))
  /\ outcome (run_validation REQUIREMENTS
                (loaded "board.ioc"
                   (<["Dma.USART2_RX.0.Priority" := "LOW"]>
                      (load_text sample_ok))))
     = outcome (run_validation REQUIREMENTS
                  (loaded "board.ioc" (load_text sample_ok)))
  /\ main other_rulebook ["validate"; "board.ioc"]
       (fun _ => Readable sample_ok)
     = main REQUIREMENTS ["validate"; "board.ioc"]
         (fun _ => Readable sample_ok).
Proof.
  destruct (C10_unread_settings "board.ioc" (load_text sample_ok))
    as (_ & Hmode & Hkey & Hrule & _).
  split; [|split].
  - apply Hmode; discriminate.
  - apply Hkey; [compute_done|discriminate].
  - apply Hrule. reflexivity.
Defined.

(** The clock check on values a float can hold, the case C8 is right
    about: APB1 below its range gives exactly one error, and an APB2 out
    of its range adds a warning, never an error. *)
Example clock_41_mhz :
  outcome (validate_clock_config REQUIREMENTS
             (loaded "board.ioc"
                (<["RCC.APB1Freq_Value" := "41000000"]>
                   (<["RCC.APB2Freq_Value" := "120000000"]> ∅))))
  = (inl tt, [apb1_msg 41000000], [apb2_msg 120000000]).
Proof. vm_compute. reflexivity. Qed.

(** The bounds of C9 are reached: a file that only turns on
    [DeletePrevious] gets 4 errors and 6 warnings. *)
Example bounds_reached :
  let self := final (validate REQUIREMENTS "board.ioc"
                       (Readable "ProjectManager.DeletePrevious=true")) in
  length (errors self) = 4 /\ length (warnings self) = 6.
Proof. vm_compute. split; reflexivity. Qed.

(** The limit on the digits of [int]: 4300 digits convert, leading zeros
    and all; with one digit more the conversion fails, so that a file
    whose APB1 value is 42000000 behind 4293 zeros gets the parse error
    and exits with status 1. *)
Example int_digit_limit :
  py_int (str_mul "0" 4292 +:+ "42000000") = Some 42000000%Z
  /\ py_int (str_mul "0" 4292 +:+ "4_2000000") = Some 42000000%Z
  /\ py_int (str_mul "0" 4293 +:+ "42000000") = None
  /\ outcome (validate REQUIREMENTS "board.ioc"
                (Readable (sample_ok
                           +:+ line ("RCC.APB1Freq_Value="
                                     +:+ str_mul "0" 4293 +:+ "42000000"))))
     = (inl false, [parse_failed], [])
  /\ exit_code REQUIREMENTS ["validate"; "board.ioc"]
       (fun _ => Readable (sample_ok
                           +:+ line ("RCC.APB1Freq_Value="
                                     +:+ str_mul "0" 4293 +:+ "42000000")))
     = 1%Z.
Proof.
  split; [vm_compute; reflexivity|]. split; [vm_compute; reflexivity|].
  split; [vm_compute; reflexivity|]. split; vm_compute; reflexivity.
Qed.

(** * Further properties *)

(** ** More on strings and on the loader *)

Section MoreStrings.

Lemma append_assoc a b c : (a +:+ b) +:+ c = a +:+ b +:+ c.
Proof.
  induction a as [|x a IH]; [reflexivity|].
  rewrite !append_cons, IH. reflexivity.
Qed.

Lemma append_nil_r a : a +:+ "" = a.
Proof.
  induction a as [|x a IH]; [reflexivity|]. rewrite append_cons, IH.
  reflexivity.
Qed.

Lemma lstrip_fixed s :
  (forall c r, s = String c r -> Str.isspace c = false) -> Str.lstrip s = s.
Proof.
  destruct s as [|c r]; [reflexivity|]. intros H. cbn.
  rewrite (H c r eq_refl). reflexivity.
Qed.

Lemma rstrip_idem s : Str.rstrip (Str.rstrip s) = Str.rstrip s.
Proof.
  induction s as [|c s IH]; [reflexivity|]. cbn.
  destruct (Str.rstrip s) as [|d r] eqn:Hr.
  - destruct (Str.isspace c) eqn:Hc; [reflexivity|]. cbn. rewrite Hc.
    reflexivity.
  - cbn [Str.rstrip]. cbn [Str.rstrip] in IH. rewrite IH. reflexivity.
Qed.

Lemma strip_idem s : Str.strip (Str.strip s) = Str.strip s.
Proof.
  unfold Str.strip at 1.
  rewrite lstrip_fixed by apply (strip_spec s).
  unfold Str.strip. apply rstrip_idem.
Qed.

Lemma strip_fixed_parts s :
  Str.strip s = s -> Str.lstrip s = s /\ Str.rstrip s = s.
Proof.
  intros H.
  assert (Str.lstrip s = s) as Hl.
  { apply lstrip_fixed. intros c r E. apply (proj1 (proj2 (strip_spec s)) c r).
    rewrite H. exact E. }
  split; [exact Hl|]. unfold Str.strip in H. rewrite Hl in H. exact H.
Qed.

Lemma contains_lstrip c s :
  Str.contains c s = false -> Str.contains c (Str.lstrip s) = false.
Proof.
  induction s as [|d s IH]; [reflexivity|]. cbn. intros H.
  apply orb_false_elim in H as [H1 H2].
  destruct (Str.isspace d); [auto|]. cbn. rewrite H1, H2. reflexivity.
Qed.

Lemma contains_rstrip c s :
  Str.contains c s = false -> Str.contains c (Str.rstrip s) = false.
Proof.
  induction s as [|d s IH]; [reflexivity|]. cbn. intros H.
  apply orb_false_elim in H as [H1 H2]. specialize (IH H2).
  destruct (Str.rstrip s) as [|e r].
  - destruct (Str.isspace d); [reflexivity|]. cbn. rewrite H1. reflexivity.
  - cbn. cbn in IH. rewrite H1, IH. reflexivity.
Qed.

Lemma contains_strip c s :
  Str.contains c s = false -> Str.contains c (Str.strip s) = false.
Proof. intros H. apply contains_rstrip, contains_lstrip, H. Qed.

Lemma rstrip_all_space b : all_space b = true -> Str.rstrip b = "".
Proof.
  induction b as [|c b IH]; [reflexivity|]. cbn. intros H.
  apply andb_prop in H as [Hc Hb]. rewrite (IH Hb), Hc. reflexivity.
Qed.

Lemma rstrip_app_space a b :
  all_space b = true -> Str.rstrip (a +:+ b) = Str.rstrip a.
Proof.
  intros Hb. induction a as [|c a IH].
  - rewrite append_nil. apply rstrip_all_space, Hb.
  - rewrite append_cons. cbn. rewrite IH. reflexivity.
Qed.

Lemma rstrip_app_fixed a b :
  Str.rstrip b = b -> b <> "" -> Str.rstrip (a +:+ b) = a +:+ b.
Proof.
  intros Hb Hne. induction a as [|c a IH].
  - rewrite append_nil. exact Hb.
  - rewrite append_cons. cbn. rewrite IH.
    destruct (a +:+ b) eqn:E; [|reflexivity].
    destruct a; [rewrite append_nil in E; contradiction|discriminate].
Qed.

Lemma no_eol_app a b : no_eol (a +:+ b) = no_eol a && no_eol b.
Proof.
  induction a as [|c a IH]; [reflexivity|]. rewrite append_cons. cbn.
  rewrite IH. rewrite !andb_assoc. reflexivity.
Qed.

Lemma readlines_from_line s : forall cur rest,
  no_eol s = true ->
  Str.readlines_from cur (s +:+ Str.nl +:+ rest)
  = (cur +:+ s +:+ Str.nl) :: Str.readlines_from "" rest.
Proof.
  induction s as [|c s IH]; intros cur rest H.
  - rewrite !append_nil. reflexivity.
  - cbn in H. apply andb_prop in H as [H Hs]. apply andb_prop in H as [H1 H2].
    rewrite append_cons. cbn.
    apply negb_true_iff in H1, H2. rewrite H1, H2.
    rewrite (IH _ _ Hs), append_assoc. reflexivity.
Qed.

End MoreStrings.

Section MoreLoader.

Lemma spec_entry_Some ln k v :
  spec_entry ln = Some (k, v) ->
  exists k0 v0,
    Str.strip ln = k0 +:+ String "=" v0 /\ Str.contains "=" k0 = false
    /\ Str.startswith "#" (Str.strip ln) = false
    /\ k = Str.strip k0 /\ v = Str.strip v0.
Proof.
  unfold spec_entry. cbv zeta.
  destruct (decide (Str.strip ln = "")); [discriminate|].
  destruct (Str.startswith "#" (Str.strip ln)) eqn:Hh; [discriminate|].
  destruct (Str.contains "=" (Str.strip ln)); [|discriminate]. cbn.
  destruct (Str.split_first "=" (Str.strip ln)) as [[k0 v0]|] eqn:Hs;
    [|discriminate].
  cbn. intros [= <- <-]. apply split_first_Some in Hs as [E Hk].
  exists k0, v0. auto.
Qed.

(** What the loader stores is trimmed; a stored key has no equal sign
    and does not start with a hash. *)
Lemma spec_entry_trimmed ln k v :
  spec_entry ln = Some (k, v) ->
  Str.strip k = k /\ Str.strip v = v /\ Str.contains "=" k = false
  /\ Str.startswith "#" k = false.
Proof.
  intros H. apply spec_entry_Some in H
    as (k0 & v0 & E & Hk & Hh & -> & ->).
  split; [apply strip_idem|]. split; [apply strip_idem|].
  split; [apply contains_strip, Hk|].
  destruct k0 as [|c k0]; [reflexivity|].
  rewrite E, append_cons in Hh. cbn in Hh.
  assert (Str.isspace c = false) as Hc.
  { apply (proj1 (proj2 (strip_spec ln)) c (k0 +:+ String "=" v0)).
    rewrite E. apply append_cons. }
  unfold Str.strip. cbn [Str.lstrip]. rewrite Hc.
  destruct (rstrip_head c k0 Hc) as (r & ->). exact Hh.
Qed.

Lemma strip_entry_line kv :
  plain_entry kv ->
  Str.strip (entry_line kv) = kv.1 +:+ String "=" kv.2.
Proof.
  destruct kv as [k v]. unfold plain_entry, entry_line. cbn [fst snd].
  intros (Hk & Hv & _ & _ & _ & _).
  apply strip_fixed_parts in Hk as [Hkl Hkr].
  apply strip_fixed_parts in Hv as [Hvl Hvr].
  unfold Str.strip.
  assert (Str.lstrip (k +:+ "=" +:+ v +:+ Str.nl)
          = k +:+ "=" +:+ v +:+ Str.nl) as ->.
  { destruct k as [|c k]; [reflexivity|]. rewrite append_cons.
    cbn in Hkl. cbn. destruct (Str.isspace c) eqn:Hc; [|reflexivity].
    apply lstrip_head in Hkl. rewrite Hkl in Hc. discriminate. }
  change (k +:+ "=" +:+ v +:+ Str.nl)
    with (k +:+ String "=" (v +:+ Str.nl)).
  replace (k +:+ String "=" (v +:+ Str.nl))
    with ((k +:+ String "=" v) +:+ Str.nl).
  2:{ rewrite append_assoc, append_cons. reflexivity. }
  rewrite rstrip_app_space by reflexivity.
  apply rstrip_app_fixed; [|discriminate].
  cbn. rewrite Hvr. destruct v; reflexivity.
Qed.

Lemma spec_entry_line kv : plain_entry kv -> spec_entry (entry_line kv) = Some kv.
Proof.
  intros H. pose proof (strip_entry_line kv H) as E.
  destruct kv as [k v]. destruct H as (Hk & Hv & He & Hh & _ & _).
  cbn [fst snd] in *.
  rewrite (spec_entry_cut _ k v E He).
  - rewrite Hk, Hv. reflexivity.
  - rewrite E. destruct k; [reflexivity|exact Hh].
Qed.

Lemma readlines_entries es :
  Forall plain_entry es ->
  Str.readlines (entries_text es) = entry_line <$> es.
Proof.
  unfold Str.readlines. induction 1 as [|kv es H _ IH]; [reflexivity|].
  cbn [entries_text fmap list_fmap]. rewrite <- IH.
  destruct kv as [k v]. destruct H as (_ & _ & _ & _ & Ek & Ev).
  unfold entry_line. cbn [fst snd] in *.
  replace ((k +:+ "=" +:+ v +:+ Str.nl) +:+ entries_text es)
    with ((k +:+ "=" +:+ v) +:+ Str.nl +:+ entries_text es).
  2:{ rewrite !append_assoc. reflexivity. }
  rewrite readlines_from_line, append_nil, !append_assoc; [reflexivity|].
  rewrite !no_eol_app, Ek, Ev. reflexivity.
Qed.

End MoreLoader.

(** X1: whatever the text of the file, a key the loader has stored is
    trimmed, has no equal sign and does not start with a hash, and the
    value stored with it is trimmed: no lookup of a key with blanks around
    it, or with an equal sign in it, can find anything in a loaded
    mapping. *)
Theorem X1_loaded_entries_trimmed (text : string) (k v : string) :
  load_text text !! k = Some v ->
  Str.strip k = k /\ Str.strip v = v
  /\ Str.contains "=" k = false /\ Str.startswith "#" k = false.
Proof.
  unfold load_text. rewrite load_lines_spec, (right_id_L ∅ (∪)).
  intros H. apply elem_of_list_to_map_2 in H.
  apply elem_of_reverse, list_elem_of_omap in H as (ln & _ & H).
  apply (spec_entry_trimmed ln k v H).
Qed.

Lemma X1_loaded_entries_witness :
  Str.strip "CAN1.Mode" = "CAN1.Mode" /\ Str.strip "NORMAL" = "NORMAL"
  /\ Str.contains "=" "CAN1.Mode" = false
  /\ Str.startswith "#" "CAN1.Mode" = false.
Proof.
  apply (X1_loaded_entries_trimmed sample_ok "CAN1.Mode" "NORMAL").
  vm_compute. reflexivity.
Defined.

(** X2: loading is idempotent on the object: reading the same lines a
    second time into the mapping they were loaded to changes nothing,
    whatever the mapping held before the first load. *)
Theorem X2_reload_changes_nothing (cfg : gmap string string)
  (lines : list string) :
  load_lines (load_lines cfg lines) lines = load_lines cfg lines
  /\ load_lines cfg (lines ++ lines) = load_lines cfg lines.
Proof.
  assert (load_lines (load_lines cfg lines) lines = load_lines cfg lines)
    as H.
  { rewrite !load_lines_spec, (assoc_L (∪)), (idemp_L (∪)). reflexivity. }
  split; [exact H|]. rewrite load_lines_app. exact H.
Qed.

(** X3: a file of lines [key=value], with keys and values that are
    trimmed and on one line, the keys without equal sign and not starting
    with a hash, loads to exactly these entries, a later line winning over
    an earlier one with the same key; when no key comes twice, every key
    reads back the value written for it. *)
Theorem X3_plain_file_loads_back (es : list (string * string)) :
  Forall plain_entry es ->
  load_text (entries_text es) = list_to_map (reverse es)
  /\ (NoDup (es.*1) ->
      forall k v dflt,
        (k, v) ∈ es -> dict_get (load_text (entries_text es)) k dflt = v).
Proof.
  intros H.
  assert (load_text (entries_text es) = list_to_map (reverse es)) as E.
  { unfold load_text.
    rewrite load_lines_spec, (right_id_L ∅ (∪)), (readlines_entries es H).
    do 2 f_equal. induction H as [|kv es Hkv _ IH]; [reflexivity|].
    cbn. rewrite (spec_entry_line kv Hkv), IH. reflexivity. }
  split; [exact E|].
  intros Hnd k v dflt Hin. unfold dict_get. rewrite E.
  rewrite (elem_of_list_to_map_1 (reverse es) k v); [reflexivity| |].
  - rewrite fmap_reverse, reverse_Permutation. exact Hnd.
  - apply elem_of_reverse, Hin.
Qed.

Lemma X3_plain_file_witness :
  load_text (entries_text [("A", "1"); ("B.c", "x = y"); ("A", "2")])
  = list_to_map [("A", "2"); ("B.c", "x = y"); ("A", "1")].
Proof.
  apply (X3_plain_file_loads_back
           [("A", "1"); ("B.c", "x = y"); ("A", "2")]).
  repeat (apply Forall_cons; split; [repeat split|]). apply Forall_nil.
  exact I.
Defined.

(** ** The findings of a run as a function of the mapping *)

Section Findings.

Lemma float_ok_true n s : float_ok n = true -> true_div_1e6 n s = Ret n s.
Proof. intros H. apply true_div_1e6_ok, Z.ltb_lt, H. Qed.

Lemma float_ok_false n s :
  float_ok n = false -> true_div_1e6 n s = Raise OverflowError s.
Proof. intros H. apply true_div_1e6_overflow, Z.ltb_ge, H. Qed.

Lemma in_range_float_ok lo hi n :
  (Z.abs lo < 2 ^ 64)%Z -> (Z.abs hi < 2 ^ 64)%Z ->
  (lo <= n <= hi)%Z -> float_ok n = true.
Proof.
  intros H1 H2 H. apply Z.ltb_lt. pose proof FLOAT_LIMIT_large. lia.
Qed.

(** The clock check, when it does not raise. *)
Lemma validate_clock_config_findings s :
  clock_overflows (config s) = false ->
  exists s', validate_clock_config REQUIREMENTS s = Ret tt s'
    /\ config s' = config s /\ ioc_path s' = ioc_path s
    /\ errors s' = errors s ++ clock_errors (config s)
    /\ warnings s' = warnings s ++ clock_warnings (config s).
Proof.
  unfold clock_overflows, clock_errors, clock_warnings, clock_values.
  destruct (py_int (dict_get (config s) "RCC.APB1Freq_Value" "0"))
    as [f1|] eqn:P1;
    [destruct (py_int (dict_get (config s) "RCC.APB2Freq_Value" "0"))
       as [f2|] eqn:P2|].
  - intros H. apply orb_false_elim in H as [H1 H2].
    apply negb_false_iff, Z.ltb_lt in H1, H2.
    apply (validate_clock_config_spec s f1 f2 P1 P2 H1 H2).
  - intros _. rewrite validate_clock_config_unparsable by (right; exact P2).
    eexists. split; [reflexivity|]. cbn. rewrite app_nil_r. auto.
  - intros _. rewrite validate_clock_config_unparsable by (left; exact P1).
    eexists. split; [reflexivity|]. cbn. rewrite app_nil_r. auto.
Qed.

(** The clock check, when it raises: what was recorded for APB1 stays. *)
Lemma validate_clock_config_raises s f1 f2 :
  clock_values (config s) = (Some f1, Some f2) ->
  float_ok f1 && float_ok f2 = false ->
  exists s', validate_clock_config REQUIREMENTS s = Raise OverflowError s'
    /\ config s' = config s
    /\ errors s' = errors s
         ++ (if float_ok f1
             then when (bool_decide (~ (42000000 <= f1 <= 50000000)%Z))
                    (apb1_msg f1)
             else [])
    /\ warnings s' = warnings s.
Proof.
  unfold clock_values. intros [= P1 P2] Hok.
  pose proof FLOAT_LIMIT_large as FL.
  unfold validate_clock_config. unfold_m. cbn. rewrite P1, P2. cbn.
  destruct (float_ok f1) eqn:O1.
  - cbn in Hok.
    assert (~ (80000000 <= f2 <= 100000000)%Z) as Hout.
    { intros H. rewrite (in_range_float_ok 80000000 100000000) in Hok;
        [discriminate|cbn; lia|cbn; lia|exact H]. }
    assert ((80000000 <=? f2)%Z && (f2 <=? 100000000)%Z = false) as ->.
    { apply andb_false_iff.
      destruct (Z.leb_spec 80000000 f2), (Z.leb_spec f2 100000000);
        auto; lia. }
    destruct (Z.leb_spec 42000000 f1), (Z.leb_spec f1 50000000);
      try (exfalso; lia); cbn;
      rewrite ?(float_ok_true f1) by assumption; cbn;
      repeat (rewrite true_div_1e6_ok by (cbn; lia); cbn);
      rewrite (float_ok_false f2) by assumption;
      eexists; (split; [reflexivity|]); cbn;
      case_bool_decide; try lia; cbn; rewrite ?app_nil_r; auto.
  - destruct (Z.leb_spec 42000000 f1), (Z.leb_spec f1 50000000); cbn;
      rewrite ?(float_ok_false f1) by assumption; cbn;
      eexists; (split; [reflexivity|]); cbn; rewrite ?app_nil_r; auto.
Qed.

Lemma run_checks_findings s :
  clock_overflows (config s) = false ->
  exists s5, run_checks REQUIREMENTS s = Ret tt s5
    /\ config s5 = config s
    /\ errors s5 = errors s ++ expected_errors (config s)
    /\ warnings s5 = warnings s ++ expected_warnings (config s).
Proof.
  intros Hc. unfold run_checks, mbind, M_bind.
  destruct (validate_dma_config_spec REQUIREMENTS s)
    as (s1 & -> & C1 & _ & E1 & W1).
  destruct (validate_interrupts_spec REQUIREMENTS s1)
    as (s2 & -> & C2 & _ & E2 & W2).
  destruct (validate_clock_config_findings s2)
    as (s3 & -> & C3 & _ & E3 & W3).
  { rewrite C2, C1. exact Hc. }
  destruct (validate_can_config_spec REQUIREMENTS s3)
    as (s4 & -> & C4 & _ & E4 & W4 & _).
  destruct (validate_code_generation_spec REQUIREMENTS s4)
    as (s5 & -> & C5 & _ & E5 & W5).
  exists s5. split; [reflexivity|].
  assert (config s5 = config s) as C
    by (rewrite C5, C4, C3, C2, C1; reflexivity).
  split; [exact C|].
  rewrite C4, C3, C2, C1 in E5, W5. rewrite C3, C2, C1 in W4.
  rewrite C2, C1 in E3, W3. rewrite C1 in W2.
  unfold expected_errors, expected_warnings, dma_errors, dma_warnings,
    interrupt_warnings, codegen_errors, codegen_warnings, can_warnings.
  cbv zeta.
  split.
  - rewrite E5, E4, E3, E2, E1. rewrite <- !app_assoc. reflexivity.
  - rewrite W5, W4, W3, W2, W1. rewrite <- !app_assoc. reflexivity.
Qed.

Lemma run_checks_raises s :
  clock_overflows (config s) = true ->
  exists s', run_checks REQUIREMENTS s = Raise OverflowError s'
    /\ config s' = config s.
Proof.
  unfold clock_overflows. intros Hc.
  destruct (clock_values (config s)) as [[f1|] [f2|]] eqn:Hv;
    try discriminate.
  unfold run_checks, mbind, M_bind.
  destruct (validate_dma_config_spec REQUIREMENTS s)
    as (s1 & -> & C1 & _).
  destruct (validate_interrupts_spec REQUIREMENTS s1)
    as (s2 & -> & C2 & _).
  destruct (validate_clock_config_raises s2 f1 f2) as (s3 & -> & C3 & _).
  { rewrite C2, C1. exact Hv. }
  { destruct (float_ok f1), (float_ok f2); cbn in *; congruence. }
  exists s3. split; [reflexivity|]. rewrite C3, C2, C1. reflexivity.
Qed.

End Findings.

(** X12: the order of the lines of a file does not matter as long as no
    key is written twice: two arrangements of the same lines load to the
    same mapping. *)
Theorem X12_line_order_irrelevant (cfg : gmap string string)
  (lines lines' : list string) :
  lines ≡ₚ lines' ->
  NoDup ((omap spec_entry lines).*1) ->
  load_lines cfg lines = load_lines cfg lines'.
Proof.
  intros Hp Hnd. rewrite !load_lines_spec. f_equal.
  apply list_to_map_proper.
  - rewrite fmap_reverse, reverse_Permutation. exact Hnd.
  - rewrite !reverse_Permutation, Hp. reflexivity.
Qed.

Lemma X12_line_order_witness :
  load_lines ∅ ["A=1"; "# note"; "B=2"] = load_lines ∅ ["B=2"; "A=1"; "# note"].
Proof.
  apply X12_line_order_irrelevant.
  - change ["A=1"; "# note"; "B=2"] with (["A=1"; "# note"] ++ ["B=2"]).
    change ["B=2"; "A=1"; "# note"] with (["B=2"] ++ ["A=1"; "# note"]).
    apply Permutation_app_comm.
  - compute_done.
Defined.

(** ** Verdict, report and output *)

Section Status.

Lemma is_nil_app {A} (a b : list A) : is_nil (a ++ b) = is_nil a && is_nil b.
Proof. destruct a; reflexivity. Qed.

Lemma is_nil_when {A} b (x : A) : is_nil (when b x) = negb b.
Proof. destruct b; reflexivity. Qed.

Lemma is_nil_true {A} (l : list A) : is_nil l = true <-> l = [].
Proof. destruct l; split; auto; discriminate. Qed.

(** No error is expected exactly when the three error-level settings
    are right and APB1 is a number in its range. *)
Lemma expected_errors_nil cfg :
  clock_overflows cfg = false ->
  is_nil (expected_errors cfg) = true <->
  dict_get cfg "Dma.USART2_RX.0.Mode" "" = "CIRCULAR"
  /\ dict_get cfg "Dma.ADC1.0.Mode" "" = "CIRCULAR"
  /\ (exists f1 f2, clock_values cfg = (Some f1, Some f2)
                    /\ (42000000 <= f1 <= 50000000)%Z
                    /\ (Z.abs f2 < FLOAT_LIMIT)%Z)
  /\ dict_get cfg "ProjectManager.KeepUserCode" "" = "true".
Proof.
  intros Hc. unfold expected_errors, dma_errors, clock_errors, codegen_errors.
  cbv zeta. rewrite !is_nil_app, !is_nil_when, !andb_true_iff.
  rewrite !negb_true_iff, !bool_decide_eq_false.
  unfold clock_overflows in Hc.
  destruct (clock_values cfg) as [[f1|] [f2|]] eqn:Hv.
  - apply orb_false_elim in Hc as [_ H2].
    apply negb_false_iff, Z.ltb_lt in H2.
    rewrite is_nil_when, negb_true_iff, bool_decide_eq_false.
    split.
    + intros ((Hrx & Hadc) & Hf & Hk).
      split; [destruct (decide (dict_get cfg "Dma.USART2_RX.0.Mode" ""
                                = "CIRCULAR")); tauto|].
      split; [destruct (decide (dict_get cfg "Dma.ADC1.0.Mode" ""
                                = "CIRCULAR")); tauto|].
      split; [exists f1, f2; split; [reflexivity|]; split; [lia|exact H2]|].
      destruct (decide (dict_get cfg "ProjectManager.KeepUserCode" ""
                        = "true")); tauto.
    + intros (Hrx & Hadc & (g1 & g2 & [= <- <-] & Hr & _) & Hk).
      repeat split; try tauto; lia.
  - split; [intros (_ & H & _); discriminate|].
    intros (_ & _ & (g1 & g2 & H & _) & _). discriminate.
  - split; [intros (_ & H & _); discriminate|].
    intros (_ & _ & (g1 & g2 & H & _) & _). discriminate.
  - split; [intros (_ & H & _); discriminate|].
    intros (_ & _ & (g1 & g2 & H & _) & _). discriminate.
Qed.

(** A run, by cases on the clock values: it raises [OverflowError] when
    they overflow, and otherwise returns with exactly the expected
    findings appended. *)
Lemma run_validation_findings s :
  if clock_overflows (config s) then
    exists sf,
      run_validation REQUIREMENTS s = Raise OverflowError sf
      /\ config sf = config s
  else
    exists sf,
      run_validation REQUIREMENTS s
      = Ret (is_nil (errors s ++ expected_errors (config s))) sf
      /\ config sf = config s
      /\ errors sf = errors s ++ expected_errors (config s)
      /\ warnings sf = warnings s ++ expected_warnings (config s).
Proof.
  destruct (clock_overflows (config s)) eqn:Hc.
  - destruct (run_checks_raises (after_header s) Hc) as (sf & Hr & C).
    exists sf. split; [apply run_validation_raises, Hr|exact C].
  - destruct (run_checks_findings (after_header s) Hc)
      as (s5 & Hr & C & He & Hw).
    destruct (run_validation_returns REQUIREMENTS s s5 Hr)
      as (sf & Hrun & Cf & Ef & Wf).
    exists sf. rewrite Hrun, He, Cf, Ef, Wf, C, He, Hw. repeat split.
Qed.

End Status.

Section Report.

Lemma print_numbered_lines msgs : forall i s,
  print_numbered i msgs s =
  Ret tt {| ioc_path := ioc_path s; config := config s;
            errors := errors s; warnings := warnings s;
            stdout := stdout s ++ numbered i msgs;
            lookups := lookups s |}.
Proof.
  induction msgs as [|msg msgs IH]; intros i s.
  - destruct s. cbn. rewrite app_nil_r. reflexivity.
  - cbn [print_numbered]. unfold mbind, M_bind, print at 1.
    rewrite IH. cbn [ioc_path config errors warnings stdout].
    f_equal. f_equal. unfold numbered.
    rewrite imap_cons, Nat.add_0_r, <- app_assoc.
    change ([[Lit "  "; Num i; Lit ". "] ++ msg]
            ++ imap (fun j m => [Lit "  "; Num (S i + j); Lit ". "] ++ m) msgs)
      with (([Lit "  "; Num i; Lit ". "] ++ msg)
            :: imap (fun j m => [Lit "  "; Num (S i + j); Lit ". "] ++ m) msgs).
    do 2 f_equal.
    apply imap_ext. intros j x _. cbn. rewrite Nat.add_succ_r. reflexivity.
Qed.

Lemma report_prints s :
  report s =
  Ret (is_nil (errors s))
    {| ioc_path := ioc_path s; config := config s;
       errors := errors s; warnings := warnings s;
       stdout := stdout s ++ report_lines (errors s) (warnings s);
       lookups := lookups s |}.
Proof.
  unfold report. unfold_m.
  repeat (cbn;
          match goal with
          | |- context [print_numbered ?i ?l ?st] =>
              rewrite (print_numbered_lines l i st)
          | |- context [if ?c then _ else _] =>
              lazymatch type of c with bool => destruct c eqn:? end
          end); cbn;
    destruct (errors s), (warnings s); cbn in *; try discriminate;
    f_equal; f_equal; rewrite <- ?app_assoc; reflexivity.
Qed.

Lemma run_validation_report R s b sf :
  run_validation R s = Ret b sf ->
  exists s5,
    run_checks R (after_header s) = Ret tt s5
    /\ errors sf = errors s5 /\ warnings sf = warnings s5
    /\ stdout sf = stdout s5 ++ report_lines (errors s5) (warnings s5)
    /\ b = is_nil (errors s5).
Proof.
  rewrite run_validation_stages. unfold mbind, M_bind.
  rewrite print_header_ret.
  destruct (run_checks R (after_header s)) as [[] s5|e s5]; [|discriminate].
  rewrite report_prints. intros [= <- <-]. exists s5. repeat split.
Qed.

Lemma report_lines_last errs warns :
  last (report_lines errs warns) =
  Some (match errs, warns with
        | [], [] =>
            [Lit Str.nl; tick;
             Lit " All checks passed! Configuration meets platform requirements."]
        | [], _ =>
            [Lit Str.nl; warn;
             Lit " Configuration passed with warnings. Review recommendations."]
        | _, _ =>
            [Lit Str.nl; cross;
             Lit " Configuration FAILED validation. Fix errors before proceeding."]
        end).
Proof.
  unfold report_lines.
  destruct errs as [|e errs], warns as [|w warns];
    rewrite ?app_assoc, ?last_snoc; reflexivity.
Qed.

End Report.

Section Output.

Ltac solve_prefix :=
  cbn; solve [repeat first [reflexivity | apply prefix_app_r]].

(** Printing only appends: what a method leaves on standard output
    starts with what was there. *)
Lemma bind_prints {A B} (m : M A) (f : A -> M B) :
  (forall s, stdout s `prefix_of` stdout (final (m s))) ->
  (forall x s, stdout s `prefix_of` stdout (final (f x s))) ->
  forall s, stdout s `prefix_of` stdout (final ((m ≫= f) s)).
Proof.
  intros Hm Hf s. unfold mbind, M_bind. specialize (Hm s).
  destruct (m s) as [x s1|e s1]; cbn in *; [|exact Hm].
  etrans; [exact Hm|apply Hf].
Qed.

Lemma validate_interrupts_prints R s :
  stdout s `prefix_of` stdout (final (validate_interrupts R s)).
Proof. unfold validate_interrupts. unfold_m. explore; solve_prefix. Qed.

Lemma validate_clock_config_prints R s :
  stdout s `prefix_of` stdout (final (validate_clock_config R s)).
Proof.
  unfold validate_clock_config, true_div_1e6. unfold_m.
  explore; solve_prefix.
Qed.

Lemma validate_can_config_prints R s :
  stdout s `prefix_of` stdout (final (validate_can_config R s)).
Proof. unfold validate_can_config. unfold_m. explore; solve_prefix. Qed.

Lemma validate_code_generation_prints R s :
  stdout s `prefix_of` stdout (final (validate_code_generation R s)).
Proof.
  unfold validate_code_generation. unfold_m. explore; solve_prefix.
Qed.

Lemma validate_dma_config_prints R s :
  (stdout s ++ [[Lit (Str.nl +:+ "[DMA Configuration]")]])
    `prefix_of` stdout (final (validate_dma_config R s)).
Proof. unfold validate_dma_config. unfold_m. explore; solve_prefix. Qed.

Lemma report_prints_more s : stdout s `prefix_of` stdout (final (report s)).
Proof. rewrite report_prints. cbn. eexists. reflexivity. Qed.

(** A run first prints its heading and the heading of the DMA check. *)
Lemma run_validation_prints R s :
  (stdout s
   ++ [banner; [Lit "STM32CubeMX Configuration Validator"];
       [Lit "File: "; PathName (ioc_path s)]; rule;
       [Lit (Str.nl +:+ "[DMA Configuration]")]])
    `prefix_of` stdout (final (run_validation R s)).
Proof.
  rewrite run_validation_stages. unfold mbind at 1, M_bind at 1.
  rewrite print_header_ret.
  assert (forall t,
            (stdout t ++ [[Lit (Str.nl +:+ "[DMA Configuration]")]])
              `prefix_of`
              stdout (final ((run_checks R ≫= fun _ => report) t))) as H.
  { intros t. unfold mbind at 1, M_bind at 1.
    assert ((stdout t ++ [[Lit (Str.nl +:+ "[DMA Configuration]")]])
              `prefix_of` stdout (final (run_checks R t))) as Hc.
    { unfold run_checks. unfold mbind at 1, M_bind at 1.
      pose proof (validate_dma_config_prints R t) as Hd.
      destruct (validate_dma_config R t) as [[] t1|e t1]; [|exact Hd].
      cbn in Hd. etrans; [exact Hd|]. clear Hd. cbv beta iota.
      revert t1.
      apply bind_prints; [apply validate_interrupts_prints|intros _].
      apply bind_prints; [apply validate_clock_config_prints|intros _].
      apply bind_prints; [apply validate_can_config_prints|intros _].
      apply validate_code_generation_prints. }
    destruct (run_checks R t) as [[] t5|e t5]; [|exact Hc].
    cbn in Hc. etrans; [exact Hc|apply report_prints_more]. }
  specialize (H (after_header s)). cbv beta iota.
  replace (stdout s
           ++ [banner; [Lit "STM32CubeMX Configuration Validator"];
               [Lit "File: "; PathName (ioc_path s)]; rule;
               [Lit (Str.nl +:+ "[DMA Configuration]")]])
    with (stdout (after_header s)
          ++ [[Lit (Str.nl +:+ "[DMA Configuration]")]]); [exact H|].
  unfold after_header, print_header. unfold_m. cbn.
  rewrite <- !app_assoc. reflexivity.
Qed.

End Output.

Ltac solve_fields :=
  cbn; repeat case_bool_decide; try congruence; cbn;
  rewrite ?app_nil_r, <- ?app_assoc; reflexivity.

(** X4: the interrupt check always returns and never records an error.
    It compares the DMA preemption priority with [5] and the DMA
    sub-priority with [0] as strings, an absent key reading as the empty
    string, and records one warning for each that differs, in this order.
    A right preemption priority is confirmed by a printed line; a right
    sub-priority is not mentioned at all. *)
Theorem X4_interrupt_check (self : IocValidator) :
  let pre :=
    dict_get (config self) "NVIC.DMA2_Stream0_IRQn.0.PreemptionPriority" "" in
  validate_interrupts REQUIREMENTS self =
  Ret tt {| ioc_path := ioc_path self; config := config self;
            errors := errors self;
            warnings := warnings self ++ interrupt_warnings (config self);
            stdout := stdout self
              ++ [[Lit (Str.nl +:+ "[Interrupt Configuration]")]]
              ++ when (bool_decide (pre = "5"))
                   [Lit "  "; tick; Lit " DMA preemption priority: ";
                    Lit pre];
            lookups := lookups self
              ++ answered (config self) interrupt_calls |}.
Proof.
  cbv zeta. unfold validate_interrupts, str_ne, interrupt_warnings.
  unfold_m. case_eqb; f_equal; f_equal; solve_fields.
Qed.

(** X5: the code-generation check always returns.  It records one error
    unless [ProjectManager.KeepUserCode] is exactly [true] (an absent key,
    [false] or [True] all give the error), and one warning exactly when
    [ProjectManager.DeletePrevious] is [true]; a right [KeepUserCode] is
    confirmed by a printed line, [DeletePrevious] never prints. *)
Theorem X5_code_generation_check (self : IocValidator) :
  let keep := dict_get (config self) "ProjectManager.KeepUserCode" "" in
  validate_code_generation REQUIREMENTS self =
  Ret tt {| ioc_path := ioc_path self; config := config self;
            errors := errors self ++ codegen_errors (config self);
            warnings := warnings self ++ codegen_warnings (config self);
            stdout := stdout self
              ++ [[Lit (Str.nl +:+ "[Code Generation Settings]")]]
              ++ when (bool_decide (keep = "true"))
                   [Lit "  "; tick; Lit " Keep user code: Enabled"];
            lookups := lookups self
              ++ answered (config self) codegen_calls |}.
Proof.
  cbv zeta. unfold validate_code_generation, str_ne, codegen_errors,
    codegen_warnings.
  unfold_m. case_eqb; f_equal; f_equal; solve_fields.
Qed.

(** X6: the clock check, by cases.  If one of the two values is no
    integer: the one parse error, no warning.  If both are integers a
    float can hold: an error exactly when APB1 is out of its range and a
    warning exactly when APB2 is out of its.  If both are integers and one
    is too large for a float: [OverflowError]; no warning is recorded, and
    when it is APB2 that is too large, the error about an APB1 out of
    range has already been recorded. *)
Theorem X6_clock_check_by_cases (self : IocValidator) :
  match clock_values (config self) with
  | (Some f1, Some f2) =>
      if float_ok f1 && float_ok f2 then
        exists self',
          validate_clock_config REQUIREMENTS self = Ret tt self'
          /\ errors self' = errors self
               ++ when (bool_decide (~ (42000000 <= f1 <= 50000000)%Z))
                    (apb1_msg f1)
          /\ warnings self' = warnings self
               ++ when (bool_decide (~ (80000000 <= f2 <= 100000000)%Z))
                    (apb2_msg f2)
      else
        exists self',
          validate_clock_config REQUIREMENTS self
          = Raise OverflowError self'
          /\ errors self' = errors self
               ++ (if float_ok f1
                   then when (bool_decide
                                (~ (42000000 <= f1 <= 50000000)%Z))
                          (apb1_msg f1)
                   else [])
          /\ warnings self' = warnings self
  | _ =>
      exists self',
        validate_clock_config REQUIREMENTS self = Ret tt self'
        /\ errors self' = errors self ++ [parse_failed]
        /\ warnings self' = warnings self
  end.
Proof.
  destruct (clock_values (config self)) as [[f1|] [f2|]] eqn:Hv.
  - destruct (float_ok f1 && float_ok f2) eqn:Hok.
    + destruct (validate_clock_config_findings self)
        as (s' & E & _ & _ & He & Hw).
      { unfold clock_overflows. rewrite Hv.
        apply andb_prop in Hok as [-> ->]. reflexivity. }
      unfold clock_errors in He. unfold clock_warnings in Hw.
      rewrite Hv in He, Hw. eauto.
    + destruct (validate_clock_config_raises self f1 f2 Hv Hok)
        as (s' & E & _ & He & Hw). eauto.
  - unfold clock_values in Hv. injection Hv as _ P2.
    rewrite validate_clock_config_unparsable by (right; exact P2).
    eexists. split; [reflexivity|]. split; reflexivity.
  - unfold clock_values in Hv. injection Hv as P1 _.
    rewrite validate_clock_config_unparsable by (left; exact P1).
    eexists. split; [reflexivity|]. split; reflexivity.
  - unfold clock_values in Hv. injection Hv as P1 _.
    rewrite validate_clock_config_unparsable by (left; exact P1).
    eexists. split; [reflexivity|]. split; reflexivity.
Qed.

(** X7: a run from any object, by cases on the mapping.  When both clock
    values are integers and one is too large for a float, it raises
    [OverflowError].  Otherwise it returns, the errors and warnings it
    appends are exactly the expected ones, in the order DMA, interrupts,
    clock, CAN, code generation, and the value it returns tells whether
    the error list is then empty. *)
Theorem X7_run_findings (self : IocValidator) :
  if clock_overflows (config self) then
    exists sf,
      run_validation REQUIREMENTS self = Raise OverflowError sf
      /\ config sf = config self
  else
    exists sf,
      run_validation REQUIREMENTS self
      = Ret (is_nil (errors self ++ expected_errors (config self))) sf
      /\ config sf = config self
      /\ errors sf = errors self ++ expected_errors (config self)
      /\ warnings sf = warnings self ++ expected_warnings (config self).
Proof. apply run_validation_findings. Qed.


(** X8: for a readable file the exit status is a function of the loaded
    mapping: 2 when the clock values overflow, else 0 when no error is
    expected and 1 otherwise.  It is 0 exactly when the UART RX and ADC
    DMA modes are [CIRCULAR], [KeepUserCode] is [true], APB1 is an integer
    in its range and APB2 an integer a float can hold; no other setting
    can make a file fail. *)
Theorem X8_exit_status_of_mapping (prog path : string)
  (fs : string -> File) (text : string) :
  fs path = Readable text ->
  let cfg := load_text text in
  exit_code REQUIREMENTS [prog; path] fs
  = (if clock_overflows cfg then 2
     else if is_nil (expected_errors cfg) then 0 else 1)%Z
  /\ (exit_code REQUIREMENTS [prog; path] fs = 0%Z <->
      dict_get cfg "Dma.USART2_RX.0.Mode" "" = "CIRCULAR"
      /\ dict_get cfg "Dma.ADC1.0.Mode" "" = "CIRCULAR"
      /\ (exists f1 f2, clock_values cfg = (Some f1, Some f2)
                        /\ (42000000 <= f1 <= 50000000)%Z
                        /\ (Z.abs f2 < FLOAT_LIMIT)%Z)
      /\ dict_get cfg "ProjectManager.KeepUserCode" "" = "true").
Proof.
  intros Hfs cfg.
  assert (exit_code REQUIREMENTS [prog; path] fs
          = (if clock_overflows cfg then 2
             else if is_nil (expected_errors cfg) then 0 else 1)%Z) as E.
  { rewrite exit_code_cases, Hfs, validate_readable.
    pose proof (run_validation_findings (loaded path cfg)) as H.
    change (config (loaded path cfg)) with cfg in H.
    change (errors (loaded path cfg)) with (@nil (list Frag)) in H.
    fold cfg. revert H. destruct (clock_overflows cfg).
    - intros (sf & -> & _). reflexivity.
    - intros (sf & -> & _ & -> & _). reflexivity. }
  split; [exact E|]. rewrite E.
  destruct (clock_overflows cfg) eqn:Hc.
  - split; [discriminate|].
    intros (_ & _ & (f1 & f2 & Hv & Hr & Hf2) & _). exfalso.
    unfold clock_overflows in Hc. rewrite Hv in Hc.
    assert (float_ok f1 = true) as O1
      by (apply (in_range_float_ok 42000000 50000000); [cbn; lia..|exact Hr]).
    assert (float_ok f2 = true) as O2 by (apply Z.ltb_lt, Hf2).
    rewrite O1, O2 in Hc. discriminate.
  - rewrite <- (expected_errors_nil cfg Hc).
    destruct (is_nil (expected_errors cfg)); split; auto; discriminate.
Qed.

Lemma X8_exit_status_witness :
  exit_code REQUIREMENTS ["validate"; "board.ioc"]
    (fun _ => Readable sample_abc) = 1%Z.
Proof.
  destruct (X8_exit_status_of_mapping "validate" "board.ioc"
              (fun _ => Readable sample_abc) sample_abc eq_refl) as [E _].
  rewrite E. vm_compute. reflexivity.
Defined.

(** X9: [run_validation] never clears the findings of the object.  When
    it is called a second time on the same object (the clock values not
    overflowing), every finding of the first run is recorded once more
    after it, and both runs return the same verdict. *)
Theorem X9_second_run_repeats_findings (self : IocValidator) :
  clock_overflows (config self) = false ->
  exists s1 s2,
    let verdict := is_nil (errors self ++ expected_errors (config self)) in
    run_validation REQUIREMENTS self = Ret verdict s1
    /\ run_validation REQUIREMENTS s1 = Ret verdict s2
    /\ errors s2 = errors self ++ expected_errors (config self)
                     ++ expected_errors (config self)
    /\ warnings s2 = warnings self ++ expected_warnings (config self)
                       ++ expected_warnings (config self).
Proof.
  intros Hc.
  pose proof (run_validation_findings self) as H1. rewrite Hc in H1.
  destruct H1 as (s1 & R1 & C1 & E1 & W1).
  pose proof (run_validation_findings s1) as H2. rewrite C1, Hc in H2.
  destruct H2 as (s2 & R2 & C2 & E2 & W2).
  exists s1, s2. cbv zeta. split; [exact R1|].
  rewrite E1, W1, <- !app_assoc in *.
  split; [|split; assumption].
  rewrite R2. f_equal. rewrite !is_nil_app. 
  destruct (is_nil (errors self)), (is_nil (expected_errors (config self)));
    reflexivity.
Qed.

Lemma X9_second_run_witness :
  exists s1 s2,
    run_validation REQUIREMENTS (loaded "board.ioc" ∅) = Ret false s1
    /\ run_validation REQUIREMENTS s1 = Ret false s2
    /\ length (errors s2) = 8 /\ length (warnings s2) = 10.
Proof.
  destruct (X9_second_run_repeats_findings (loaded "board.ioc" ∅))
    as (s1 & s2 & R1 & R2 & E & W).
  { vm_compute. reflexivity. }
  exists s1, s2. split; [exact R1|]. split; [exact R2|].
  rewrite E, W. split; vm_compute; reflexivity.
Defined.

(** X10: when a run returns, what it has printed ends with the report of
    its final errors and warnings: every recorded error and every
    recorded warning is printed on a line with its number, counted from
    1 in the order of recording, and the last line printed is the
    verdict, which is the failure line exactly when the run returns
    false. *)
Theorem X10_report_lists_findings (R : Requirements)
  (self : IocValidator) (b : bool) (sf : IocValidator) :
  run_validation R self = Ret b sf ->
  (exists before,
      stdout sf = before ++ report_lines (errors sf) (warnings sf))
  /\ (forall j e, errors sf !! j = Some e ->
                  ([Lit "  "; Num (S j); Lit ". "] ++ e) ∈ stdout sf)
  /\ (forall j w, warnings sf !! j = Some w ->
                  ([Lit "  "; Num (S j); Lit ". "] ++ w) ∈ stdout sf)
  /\ last (stdout sf) =
     Some (if b then
             if is_nil (warnings sf) then
               [Lit Str.nl; tick;
                Lit " All checks passed! Configuration meets platform requirements."]
             else
               [Lit Str.nl; warn;
                Lit " Configuration passed with warnings. Review recommendations."]
           else
             [Lit Str.nl; cross;
              Lit " Configuration FAILED validation. Fix errors before proceeding."]).
Proof.
  intros H. apply run_validation_report in H
    as (s5 & _ & -> & -> & -> & ->).
  split; [eauto|].
  assert (forall (l : list (list Frag)) j x,
            l !! j = Some x ->
            ([Lit "  "; Num (S j); Lit ". "] ++ x) ∈ numbered 1 l) as Hn.
  { intros l j x Hx. apply list_elem_of_lookup. exists j.
    unfold numbered. rewrite list_lookup_imap, Hx. reflexivity. }
  split; [|split].
  - intros j e He. apply elem_of_app. right. unfold report_lines.
    apply elem_of_app. right. pose proof (Hn _ _ _ He) as Hin.
    destruct (errors s5) as [|e0 errs]; [discriminate|].
    destruct (warnings s5); apply elem_of_app; left; right; exact Hin.
  - intros j w Hw. apply elem_of_app. right. unfold report_lines.
    apply elem_of_app. right. pose proof (Hn _ _ _ Hw) as Hin.
    destruct (warnings s5) as [|w0 warns]; [discriminate|].
    destruct (errors s5); apply elem_of_app; right;
      apply elem_of_app; left; right; exact Hin.
  - rewrite last_app, report_lines_last.
    destruct (errors s5), (warnings s5); reflexivity.
Qed.

Lemma X10_report_witness :
  exists sf,
    run_validation REQUIREMENTS (loaded "board.ioc" ∅) = Ret false sf
    /\ last (stdout sf) =
       Some [Lit Str.nl; cross;
             Lit " Configuration FAILED validation. Fix errors before proceeding."].
Proof.
  destruct (run_validation_findings (loaded "board.ioc" ∅)) as (sf & Hr & _).
  exists sf. split; [exact Hr|].
  apply (X10_report_lists_findings REQUIREMENTS _ _ _ Hr).
Defined.

(** X11: what [main] prints.  With a wrong number of arguments it prints
    the usage line only, without looking at the file system; for a
    missing file the one line of the error, for a file that cannot be
    read the one line of the unexpected error: no heading is printed
    before a failure to load.  For a file that was read the output
    starts with the heading of the run and the heading of the DMA check,
    whatever happens later. *)
Theorem X11_output_of_main (argv : list string) (fs : string -> File) :
  (length argv <> 2 ->
   main REQUIREMENTS argv fs
   = ([[Lit "Usage: python validate_cubemx_config.py <path_to_project.ioc>"]],
      1%Z))
  /\ (forall prog path,
         argv = [prog; path] -> fs path = Missing ->
         main REQUIREMENTS argv fs
         = ([[Lit "Error: "; ExcText FileNotFoundError]], 1%Z))
  /\ (forall prog path,
         argv = [prog; path] -> fs path = Unreadable ->
         main REQUIREMENTS argv fs
         = ([[Lit "Unexpected error: "; ExcText OtherError]], 2%Z))
  /\ (forall prog path text,
         argv = [prog; path] -> fs path = Readable text ->
         [banner; [Lit "STM32CubeMX Configuration Validator"];
          [Lit "File: "; PathName path]; rule;
          [Lit (Str.nl +:+ "[DMA Configuration]")]]
           `prefix_of` (main REQUIREMENTS argv fs).1).
Proof.
  split.
  { destruct argv as [|prog [|path [|c l]]]; try reflexivity.
    intros H. contradiction H. reflexivity. }
  split.
  { intros prog path -> Hfs. unfold main. rewrite Hfs, validate_missing.
    reflexivity. }
  split.
  { intros prog path -> Hfs. unfold main. rewrite Hfs, validate_unreadable.
    reflexivity. }
  intros prog path text -> Hfs. unfold main.
  rewrite Hfs, validate_readable.
  pose proof (run_validation_prints REQUIREMENTS
                (loaded path (load_text text))) as H.
  cbn [stdout loaded ioc_path app] in H.
  destruct (run_validation REQUIREMENTS (loaded path (load_text text)))
    as [b s|e s]; cbn [final] in H.
  - exact H.
  - destruct e; cbn [fst]; (etrans; [exact H|apply prefix_app_r; reflexivity]).
Qed.

Lemma X11_output_witness :
  main REQUIREMENTS ["validate"] (fun _ => Readable sample_ok)
  = ([[Lit "Usage: python validate_cubemx_config.py <path_to_project.ioc>"]],
     1%Z)
  /\ main REQUIREMENTS ["validate"; "none.ioc"] (fun _ => Missing)
     = ([[Lit "Error: "; ExcText FileNotFoundError]], 1%Z).
Proof.
  destruct (X11_output_of_main ["validate"] (fun _ => Readable sample_ok))
    as (Husage & _).
  destruct (X11_output_of_main ["validate"; "none.ioc"] (fun _ => Missing))
    as (_ & Hmissing & _).
  split.
  - apply Husage. cbn. lia.
  - apply (Hmissing "validate" "none.ioc"); reflexivity.
Defined.
